(** * Quart context stacks ([quart/ctx.py])

    A shallow embedding of the application, request and websocket
    contexts of Quart, of the global accessors built on the task-local
    context stacks, and of the [g] attribute bag.

    Python objects are mutable and shared by reference: the contexts,
    and the request/websocket objects they mutate, live in stores
    indexed by address.  Coroutines are modelled as the sequential
    computation one task performs: every [await] in [ctx.py] is a call
    whose result is needed before the next statement runs. *)

From stdpp Require Import gmap strings list fin_maps.
From Stdlib Require Import ZArith.

Local Open Scope Z_scope.

(** ** Exceptions *)

(** The exception classes [ctx.py] names, raises or meets.  [KeyError]
    is what [dict.pop] raises on a missing key (the specification calls
    it KeyNotFound); [AttributeError] is what attribute access on [None]
    raises, which is how [after_this_request] fails outside a request
    (the specification calls it NoActiveContextError). *)
Inductive Exn : Type :=
| NotFound
| MethodNotAllowed
| RedirectRequired
| BadRequest
| KeyError (name : string)
| AttributeError
| EmptyStackError
| ReferenceError
| RuntimeError (msg : string).

#[global] Instance Exn_eq_dec : EqDecision Exn.
Proof. solve_decision. Defined.

(** The outcome of a call: a returned value or a raised exception. *)
Inductive Result (A : Type) : Type :=
| Ok (a : A)
| Raise (e : Exn).
Arguments Ok {A} a.
Arguments Raise {A} e.

(** ** Values and collaborator objects *)

(** [typing.Any], as far as the attribute bag stores it. *)
Inductive Any : Type :=
| PyNone
| PyInt (z : Z)
| PyStr (s : string).

(** Objects are referred to by their address in a store. *)
Definition addr := nat.

(** Concurrently scheduled tasks are told apart by an identifier. *)
Definition Task := nat.

(** A function object, identified by its address. *)
Definition Callable := nat.

Record Rule : Type := {
  endpoint : string;
  is_websocket : bool
}.

Definition ViewArgs := list (string * string).

(** [wrappers.BaseRequestWebsocket]: the attributes [ctx.py] touches. *)
Record BaseRequestWebsocket : Type := {
  path : string;
  method : string;
  routing_exception : option Exn;
  url_rule : option Rule;
  view_args : option ViewArgs
}.

Inductive Session : Type :=
| SecureCookieSession (data : list (string * string))
| NullSession.

(** Modelled from the spec: the route adapter ([Router] in the
    specification, not part of [ctx.py]).  [match()] returns the matched
    route with the extracted path arguments, or fails; the outcome is
    fixed when the adapter is bound to its request. *)
Record UrlAdapter : Type := {
  match_ : Result (Rule * ViewArgs)
}.

(** Modelled from the spec: the application handle ([quart/app.py] is
    not part of [ctx.py]).  The teardown hooks are user code: given the
    optional error they either return ([None]) or raise ([Some e]). *)
Record Quart : Type := {
  name : string;
  create_url_adapter : option BaseRequestWebsocket -> UrlAdapter;
  open_session : BaseRequestWebsocket -> option Session;
  make_null_session : Session;
  teardown_request_funcs : option Exn -> addr -> option Exn;
  teardown_appcontext_funcs : option Exn -> option Exn
}.

(** ** The context classes *)

(** [AppContext]: [g] is the [__dict__] of its [_AppCtxGlobals]. *)
Record AppContext : Type := {
  app : Quart;
  url_adapter : UrlAdapter;
  g : gmap string Any;
  _app_reference_count : Z
}.

(** What a subclass adds to [_BaseRequestWebsocketContext]. *)
Inductive Subclass : Type :=
| RequestContext (_after_request_functions : list Callable)
| WebsocketContext.

(** [_BaseRequestWebsocketContext] together with its subclass part.
    The fields [app] and [url_adapter] are prefixed, [AppContext] has
    the same names. *)
Record _BaseRequestWebsocketContext : Type := {
  ctx_app : Quart;
  request_websocket : addr;
  ctx_url_adapter : UrlAdapter;
  session : option Session;
  subclass : Subclass
}.

(** ** Program state *)

(** The three object stores and the three task-local stacks of
    [quart/globals.py].  A stack holds, per task, the addresses pushed
    by that task, the top first. *)
Record State : Type := {
  app_ctxs : list AppContext;
  request_websockets : list BaseRequestWebsocket;
  ctxs : list _BaseRequestWebsocketContext;
  _app_ctx_stack : gmap Task (list addr);
  _request_ctx_stack : gmap Task (list addr);
  _websocket_ctx_stack : gmap Task (list addr)
}.

Definition set_app_ctxs (f : list AppContext -> list AppContext) (s : State) : State :=
  {| app_ctxs := f (app_ctxs s);
     request_websockets := request_websockets s;
     ctxs := ctxs s;
     _app_ctx_stack := _app_ctx_stack s;
     _request_ctx_stack := _request_ctx_stack s;
     _websocket_ctx_stack := _websocket_ctx_stack s |}.

Definition set_request_websockets
    (f : list BaseRequestWebsocket -> list BaseRequestWebsocket) (s : State) : State :=
  {| app_ctxs := app_ctxs s;
     request_websockets := f (request_websockets s);
     ctxs := ctxs s;
     _app_ctx_stack := _app_ctx_stack s;
     _request_ctx_stack := _request_ctx_stack s;
     _websocket_ctx_stack := _websocket_ctx_stack s |}.

Definition set_ctxs
    (f : list _BaseRequestWebsocketContext -> list _BaseRequestWebsocketContext)
    (s : State) : State :=
  {| app_ctxs := app_ctxs s;
     request_websockets := request_websockets s;
     ctxs := f (ctxs s);
     _app_ctx_stack := _app_ctx_stack s;
     _request_ctx_stack := _request_ctx_stack s;
     _websocket_ctx_stack := _websocket_ctx_stack s |}.

(** The three stacks are instances of one class; a selector says which. *)
Inductive StackName : Type := AppStack | RequestStack | WebsocketStack.

Definition get_stack (n : StackName) (s : State) : gmap Task (list addr) :=
  match n with
  | AppStack => _app_ctx_stack s
  | RequestStack => _request_ctx_stack s
  | WebsocketStack => _websocket_ctx_stack s
  end.

Definition set_stack (n : StackName) (m : gmap Task (list addr)) (s : State) : State :=
  match n with
  | AppStack =>
      {| app_ctxs := app_ctxs s;
         request_websockets := request_websockets s;
         ctxs := ctxs s;
         _app_ctx_stack := m;
         _request_ctx_stack := _request_ctx_stack s;
         _websocket_ctx_stack := _websocket_ctx_stack s |}
  | RequestStack =>
      {| app_ctxs := app_ctxs s;
         request_websockets := request_websockets s;
         ctxs := ctxs s;
         _app_ctx_stack := _app_ctx_stack s;
         _request_ctx_stack := m;
         _websocket_ctx_stack := _websocket_ctx_stack s |}
  | WebsocketStack =>
      {| app_ctxs := app_ctxs s;
         request_websockets := request_websockets s;
         ctxs := ctxs s;
         _app_ctx_stack := _app_ctx_stack s;
         _request_ctx_stack := _request_ctx_stack s;
         _websocket_ctx_stack := m |}
  end.

(** The sequence a task sees in a stack; a task that never pushed sees
    the empty sequence. *)
Definition stack_of (task : Task) (m : gmap Task (list addr)) : list addr :=
  default [] (m !! task).

(** ** Calls into collaborators *)

(** The calls [ctx.py] makes into code outside it, in the order made. *)
Inductive Event : Type :=
| url_adapter_match (request : addr)
| do_teardown_request (exc : option Exn) (ctx : addr)
| do_teardown_appcontext (exc : option Exn)
| appcontext_pushed
| appcontext_popped.

Definition is_teardown_appcontext (ev : Event) : bool :=
  match ev with do_teardown_appcontext _ => true | _ => false end.

Definition is_url_adapter_match (ev : Event) : bool :=
  match ev with url_adapter_match _ => true | _ => false end.

(** ** Computations *)

(** A computation runs from a state to an outcome, a final state and
    the collaborator calls it made.  A raised exception keeps the
    mutations made before it. *)
Definition M (A : Type) : Type := State -> Result A * State * list Event.

Definition ret {A} (a : A) : M A := fun s => (Ok a, s, []).

Definition raise {A} (e : Exn) : M A := fun s => (Raise e, s, []).

Definition bind {A B} (m : M A) (f : A -> M B) : M B :=
  fun s =>
    match m s with
    | (Ok a, s1, l1) =>
        match f a s1 with
        | (r, s2, l2) => (r, s2, l1 ++ l2)
        end
    | (Raise e, s1, l1) => (Raise e, s1, l1)
    end.

Notation "x <- m ;; k" := (bind m (fun x => k))
  (at level 100, m at next level, right associativity).
Notation "m ;;; k" := (bind m (fun _ => k))
  (at level 100, right associativity).

Definition gets {A} (f : State -> A) : M A := fun s => (Ok (f s), s, []).

Definition modify (f : State -> State) : M unit := fun s => (Ok tt, f s, []).

Definition emit (ev : Event) : M unit := fun s => (Ok tt, s, [ev]).

(** [try: body finally: fin]: [fin] runs on both paths; an exception
    raised by [fin] replaces the pending outcome. *)
Definition try_finally {A} (body : M A) (fin : M unit) : M A :=
  fun s =>
    match body s with
    | (r, s1, l1) =>
        match fin s1 with
        | (Ok _, s2, l2) => (r, s2, l1 ++ l2)
        | (Raise e, s2, l2) => (Raise e, s2, l1 ++ l2)
        end
    end.

(** [try: body except classes as error: handler]. *)
Definition try_except {A} (body : M A) (classes : Exn -> bool) (handler : Exn -> M A) : M A :=
  fun s =>
    match body s with
    | (Ok a, s1, l1) => (Ok a, s1, l1)
    | (Raise e, s1, l1) =>
        if classes e then
          match handler e s1 with
          | (r, s2, l2) => (r, s2, l1 ++ l2)
          end
        else (Raise e, s1, l1)
    end.

(** The three components of a run. *)
Definition outcome {A} (m : M A) (s : State) : Result A := fst (fst (m s)).

Definition state_after {A} (m : M A) (s : State) : State := snd (fst (m s)).

Definition calls {A} (m : M A) (s : State) : list Event := snd (m s).

(** Reading an attribute of an object.  Python cannot hold a reference
    to an object that does not exist; the model raises there. *)
Definition deref {A} (store : State -> list A) (a : addr) : M A :=
  fun s =>
    match store s !! a with
    | Some x => (Ok x, s, [])
    | None => (Raise ReferenceError, s, [])
    end.

(** Allocating a fresh object: it gets the next free address. *)
Definition new_AppContext (c : AppContext) : M addr :=
  fun s => (Ok (length (app_ctxs s)), set_app_ctxs (fun l => l ++ [c]) s, []).

Definition new_ctx (c : _BaseRequestWebsocketContext) : M addr :=
  fun s => (Ok (length (ctxs s)), set_ctxs (fun l => l ++ [c]) s, []).

(** Assigning to the attributes of an existing object. *)
Definition store_AppContext (a : addr) (c : AppContext) : M unit :=
  modify (set_app_ctxs (fun l => <[a := c]> l)).

Definition store_request_websocket (a : addr) (r : BaseRequestWebsocket) : M unit :=
  modify (set_request_websockets (fun l => <[a := r]> l)).

Definition store_ctx (a : addr) (c : _BaseRequestWebsocketContext) : M unit :=
  modify (set_ctxs (fun l => <[a := c]> l)).

(** ** The task-local stacks *)

Section TaskLocal.

(** The task that runs the code. *)
Context (task : Task).

(** Modelled from the spec: the task-local stack class of
    [quart/globals.py], which is not part of [ctx.py].  [push] puts an
    item on top for the calling task only, [pop] removes and returns
    the top and fails with EmptyStackError on an empty stack, [top]
    returns the top or [None] and never raises. *)
Definition LocalStack_push (n : StackName) (item : addr) : M unit :=
  modify (fun s =>
    set_stack n (<[task := item :: stack_of task (get_stack n s)]> (get_stack n s)) s).

(** Modelled from the spec: [pop] of the task-local stack class. *)
Definition LocalStack_pop (n : StackName) : M addr :=
  fun s =>
    match stack_of task (get_stack n s) with
    | [] => (Raise EmptyStackError, s, [])
    | item :: rest => (Ok item, set_stack n (<[task := rest]> (get_stack n s)) s, [])
    end.

(** Modelled from the spec: [top] of the task-local stack class. *)
Definition LocalStack_top (n : StackName) : M (option addr) :=
  gets (fun s => head (stack_of task (get_stack n s))).

(** ** Calls into the application *)

(** [await app.do_teardown_appcontext(exc)]: the hooks run and may raise. *)
Definition app_do_teardown_appcontext (a : Quart) (exc : option Exn) : M unit :=
  emit (do_teardown_appcontext exc) ;;;
  match teardown_appcontext_funcs a exc with
  | None => ret tt
  | Some e => raise e
  end.

(** [await app.do_teardown_request(exc, ctx)]. *)
Definition app_do_teardown_request (a : Quart) (exc : option Exn) (ctx : addr) : M unit :=
  emit (do_teardown_request exc ctx) ;;;
  match teardown_request_funcs a exc ctx with
  | None => ret tt
  | Some e => raise e
  end.

(** [url_adapter.match()]. *)
Definition url_adapter_match_call (adapter : UrlAdapter) (request : addr)
    : M (Rule * ViewArgs) :=
  emit (url_adapter_match request) ;;;
  match match_ adapter with
  | Ok res => ret res
  | Raise e => raise e
  end.

(** ** [AppContext] *)

(** [AppContext.__init__]: the attributes it sets on the new object. *)
Definition initial_AppContext (a : Quart) : AppContext :=
  {| app := a;
     url_adapter := create_url_adapter a None;
     g := ∅;
     _app_reference_count := 0 |}.

Definition AppContext__init__ (a : Quart) : M addr :=
  new_AppContext (initial_AppContext a).

(** Modelled from the spec: [Quart.app_context] of [quart/app.py],
    which is not part of [ctx.py]; it constructs an [AppContext] from
    the owning application. *)
Definition app_context (a : Quart) : M addr := AppContext__init__ a.

Definition incr_reference_count (d : Z) (c : AppContext) : AppContext :=
  {| app := app c;
     url_adapter := url_adapter c;
     g := g c;
     _app_reference_count := _app_reference_count c + d |}.

(** [AppContext.push]. *)
Definition AppContext_push (self : addr) : M unit :=
  c <- deref app_ctxs self ;;
  store_AppContext self (incr_reference_count 1 c) ;;;
  LocalStack_push AppStack self ;;;
  emit appcontext_pushed.

(** [AppContext.pop]. *)
Definition AppContext_pop (self : addr) (exc : option Exn) : M unit :=
  c <- deref app_ctxs self ;;
  store_AppContext self (incr_reference_count (-1) c) ;;;
  try_finally
    (c <- deref app_ctxs self ;;
     if decide (_app_reference_count c <= 0)
     then app_do_teardown_appcontext (app c) exc
     else ret tt)
    (LocalStack_pop AppStack ;;; ret tt) ;;;
  emit appcontext_popped.

(** [AppContext.__aenter__] and [AppContext.__aexit__]. *)
Definition AppContext__aenter__ (self : addr) : M addr :=
  AppContext_push self ;;; ret self.

Definition AppContext__aexit__ (self : addr) (exc_value : option Exn) : M unit :=
  AppContext_pop self exc_value.

(** ** [_BaseRequestWebsocketContext] and its subclasses *)

Definition set_routing_exception (e : option Exn) (r : BaseRequestWebsocket)
    : BaseRequestWebsocket :=
  {| path := path r;
     method := method r;
     routing_exception := e;
     url_rule := url_rule r;
     view_args := view_args r |}.

Definition set_match (rule : Rule) (args : ViewArgs) (r : BaseRequestWebsocket)
    : BaseRequestWebsocket :=
  {| path := path r;
     method := method r;
     routing_exception := routing_exception r;
     url_rule := Some rule;
     view_args := Some args |}.

Definition set_session (sess : option Session) (c : _BaseRequestWebsocketContext)
    : _BaseRequestWebsocketContext :=
  {| ctx_app := ctx_app c;
     request_websocket := request_websocket c;
     ctx_url_adapter := ctx_url_adapter c;
     session := sess;
     subclass := subclass c |}.

Definition set_subclass (sub : Subclass) (c : _BaseRequestWebsocketContext)
    : _BaseRequestWebsocketContext :=
  {| ctx_app := ctx_app c;
     request_websocket := request_websocket c;
     ctx_url_adapter := ctx_url_adapter c;
     session := session c;
     subclass := sub |}.

(** The classes of [except (NotFound, MethodNotAllowed, RedirectRequired)]. *)
Definition routing_failure (e : Exn) : bool :=
  match e with
  | NotFound | MethodNotAllowed | RedirectRequired => true
  | _ => false
  end.

(** [_BaseRequestWebsocketContext.match_request]. *)
Definition match_request (self : addr) : M unit :=
  c <- deref ctxs self ;;
  try_except
    (res <- url_adapter_match_call (ctx_url_adapter c) (request_websocket c) ;;
     r <- deref request_websockets (request_websocket c) ;;
     store_request_websocket (request_websocket c) (set_match (fst res) (snd res) r))
    routing_failure
    (fun error =>
       r <- deref request_websockets (request_websocket c) ;;
       store_request_websocket (request_websocket c)
         (set_routing_exception (Some error) r)).

(** [WebsocketContext.match_request]. *)
Definition WebsocketContext_match_request (self : addr) : M unit :=
  match_request self ;;;
  c <- deref ctxs self ;;
  r <- deref request_websockets (request_websocket c) ;;
  match routing_exception r with
  | Some _ => ret tt
  | None =>
      match url_rule r with
      | None => raise AttributeError
      | Some rule =>
          if negb (is_websocket rule)
          then store_request_websocket (request_websocket c)
                 (set_routing_exception (Some BadRequest) r)
          else ret tt
      end
  end.

(** Method lookup on [self]: the subclass's [match_request], if it
    has one. *)
Definition self_match_request (self : addr) : M unit :=
  c <- deref ctxs self ;;
  match subclass c with
  | RequestContext _ => match_request self
  | WebsocketContext => WebsocketContext_match_request self
  end.

(** [_BaseRequestWebsocketContext.__init__] on a new object of class
    [cls]; the attributes a subclass sets after [super().__init__]
    are given their values by the subclass's [__init__] below. *)
Definition _BaseRequestWebsocketContext__init__
    (cls : Subclass) (a : Quart) (rw : addr) : M addr :=
  r <- deref request_websockets rw ;;
  self <- new_ctx
    {| ctx_app := a;
       request_websocket := rw;
       ctx_url_adapter := create_url_adapter a (Some r);
       session := None;
       subclass := cls |} ;;
  store_request_websocket rw (set_routing_exception None r) ;;;
  self_match_request self ;;;
  ret self.

(** [RequestContext.__init__]. *)
Definition RequestContext__init__ (a : Quart) (request : addr) : M addr :=
  self <- _BaseRequestWebsocketContext__init__ (RequestContext []) a request ;;
  c <- deref ctxs self ;;
  store_ctx self (set_subclass (RequestContext []) c) ;;;
  ret self.

(** [WebsocketContext] inherits [__init__]. *)
Definition WebsocketContext__init__ (a : Quart) (websocket : addr) : M addr :=
  _BaseRequestWebsocketContext__init__ WebsocketContext a websocket.

(** [_BaseRequestWebsocketContext.__aenter__]. *)
Definition _BaseRequestWebsocketContext__aenter__ (self : addr) : M addr :=
  c <- deref ctxs self ;;
  top <- LocalStack_top AppStack ;;
  match top with
  | None =>
      app_ctx <- app_context (ctx_app c) ;;
      AppContext_push app_ctx
  | Some _ => ret tt
  end ;;;
  r <- deref request_websockets (request_websocket c) ;;
  store_ctx self (set_session (open_session (ctx_app c) r) c) ;;;
  c <- deref ctxs self ;;
  match session c with
  | None => store_ctx self (set_session (Some (make_null_session (ctx_app c))) c)
  | Some _ => ret tt
  end ;;;
  ret self.

(** [_BaseRequestWebsocketContext.__aexit__]. *)
Definition _BaseRequestWebsocketContext__aexit__
    (self : addr) (exc_value : option Exn) : M unit :=
  c <- deref ctxs self ;;
  app_ctx <- app_context (ctx_app c) ;;
  AppContext_pop app_ctx exc_value.

(** [RequestContext.__aenter__] and [RequestContext.__aexit__]. *)
Definition RequestContext__aenter__ (self : addr) : M addr :=
  _BaseRequestWebsocketContext__aenter__ self ;;;
  LocalStack_push RequestStack self ;;;
  ret self.

Definition RequestContext__aexit__ (self : addr) (exc_value : option Exn) : M unit :=
  c <- deref ctxs self ;;
  app_do_teardown_request (ctx_app c) exc_value self ;;;
  LocalStack_pop RequestStack ;;;
  _BaseRequestWebsocketContext__aexit__ self exc_value.

(** [WebsocketContext.__aenter__] and [WebsocketContext.__aexit__]. *)
Definition WebsocketContext__aenter__ (self : addr) : M addr :=
  _BaseRequestWebsocketContext__aenter__ self ;;;
  LocalStack_push WebsocketStack self ;;;
  ret self.

Definition WebsocketContext__aexit__ (self : addr) (exc_value : option Exn) : M unit :=
  LocalStack_pop WebsocketStack ;;;
  _BaseRequestWebsocketContext__aexit__ self exc_value.

(** ** Global accessors *)

(** [after_this_request]: [append] on the list of the context on top
    of the request stack; with no context there, [top] is [None] and
    the attribute access raises. *)
Definition after_this_request (func : Callable) : M Callable :=
  top <- LocalStack_top RequestStack ;;
  match top with
  | None => raise AttributeError
  | Some ctx =>
      c <- deref ctxs ctx ;;
      match subclass c with
      | RequestContext fs =>
          store_ctx ctx (set_subclass (RequestContext (fs ++ [func])) c) ;;;
          ret func
      | WebsocketContext => raise AttributeError
      end
  end.

Definition is_not_None {A} (o : option A) : bool :=
  match o with Some _ => true | None => false end.

Definition has_app_context : M bool :=
  top <- LocalStack_top AppStack ;; ret (is_not_None top).

Definition has_request_context : M bool :=
  top <- LocalStack_top RequestStack ;; ret (is_not_None top).

Definition has_websocket_context : M bool :=
  top <- LocalStack_top WebsocketStack ;; ret (is_not_None top).

End TaskLocal.

(** ** [_AppCtxGlobals] *)

(** The methods act on the instance's [__dict__]; each returns its
    outcome and the dictionary afterwards. *)
Module _AppCtxGlobals.

(** [get(name, default=None)]. *)
Definition get (name : string) (default_ : Any) (d : gmap string Any) : Any :=
  default default_ (d !! name).

(** [pop(name, default=_sentinel)]: [None] stands for the sentinel,
    a call that passes no default. *)
Definition pop (name : string) (default_ : option Any) (d : gmap string Any)
    : Result Any * gmap string Any :=
  match default_ with
  | None =>
      match d !! name with
      | Some v => (Ok v, delete name d)
      | None => (Raise (KeyError name), d)
      end
  | Some dflt =>
      match d !! name with
      | Some v => (Ok v, delete name d)
      | None => (Ok dflt, d)
      end
  end.

(** [setdefault(name, default=None)]. *)
Definition setdefault (name : string) (default_ : Any) (d : gmap string Any)
    : Any * gmap string Any :=
  match d !! name with
  | Some v => (v, d)
  | None => (default_, <[name := default_]> d)
  end.

(** [__contains__]. *)
Definition __contains__ (item : string) (d : gmap string Any) : bool :=
  bool_decide (is_Some (d !! item)).

End _AppCtxGlobals.

(** Registering several functions in turn, as a handler that decorates
    several functions with [after_this_request] does. *)
Fixpoint after_this_request_each (task : Task) (funcs : list Callable) : M unit :=
  match funcs with
  | [] => ret tt
  | func :: funcs' =>
      after_this_request task func ;;; after_this_request_each task funcs'
  end.

(** What a task observes of the stores and stacks. *)
Definition reference_count (self : addr) (s : State) : option Z :=
  _app_reference_count <$> app_ctxs s !! self.

Definition deferred_routing_failure (rw : addr) (s : State) : option (option Exn) :=
  routing_exception <$> request_websockets s !! rw.

Definition after_request_functions (ctx : addr) (s : State) : option (list Callable) :=
  c ← ctxs s !! ctx;
  match subclass c with
  | RequestContext fs => Some fs
  | WebsocketContext => None
  end.

Definition app_stack (task : Task) (s : State) : list addr :=
  stack_of task (_app_ctx_stack s).

Definition request_stack (task : Task) (s : State) : list addr :=
  stack_of task (_request_ctx_stack s).

Definition websocket_stack (task : Task) (s : State) : list addr :=
  stack_of task (_websocket_ctx_stack s).

(** How often a run called the application's app-context teardown, and
    how often it asked the adapter for a match. *)
Definition teardown_appcontext_calls (evs : list Event) : nat :=
  length (filter (fun ev => is_teardown_appcontext ev = true) evs).

Definition match_calls (evs : list Event) : nat :=
  length (filter (fun ev => is_url_adapter_match ev = true) evs).

(** ** States reached by construction and entry *)

(** The context object [__init__] builds for class [cls]. *)
Definition constructed_ctx (cls : Subclass) (a : Quart) (rw : addr)
    (r : BaseRequestWebsocket) : _BaseRequestWebsocketContext :=
  {| ctx_app := a;
     request_websocket := rw;
     ctx_url_adapter := create_url_adapter a (Some r);
     session := None;
     subclass := cls |}.

(** The state after constructing a context on the request object at
    [rw], which held [r] before and holds [r'] afterwards. *)
Definition constructed_state (cls : Subclass) (a : Quart) (rw : addr)
    (r r' : BaseRequestWebsocket) (s : State) : State :=
  set_request_websockets (fun l => <[rw := r']> l)
    (set_ctxs (fun l => l ++ [constructed_ctx cls a rw r]) s).

(** The context object once [__aenter__] has given it a session. *)
Definition entered (c : _BaseRequestWebsocketContext) (r : BaseRequestWebsocket)
    : _BaseRequestWebsocketContext :=
  set_session
    (Some (default (make_null_session (ctx_app c)) (open_session (ctx_app c) r))) c.

(** ** Sample objects *)

Module Sample.

Definition index_rule : Rule := {| endpoint := "index"; is_websocket := false |}.

Definition ws_rule : Rule := {| endpoint := "ws"; is_websocket := true |}.

(** An application that routes "/" to [index_rule] and "/ws" to
    [ws_rule], opens no session, and whose teardown hooks re-raise
    the error they are given. *)
Definition route (r : option BaseRequestWebsocket) : UrlAdapter :=
  match r with
  | None => {| match_ := Raise NotFound |}
  | Some r =>
      if String.eqb (path r) "/" then {| match_ := Ok (index_rule, []) |}
      else if String.eqb (path r) "/ws" then {| match_ := Ok (ws_rule, []) |}
      else {| match_ := Raise NotFound |}
  end.

Definition quart_app : Quart :=
  {| name := "sample";
     create_url_adapter := route;
     open_session := fun _ => None;
     make_null_session := NullSession;
     teardown_request_funcs := fun exc _ => exc;
     teardown_appcontext_funcs := fun exc => exc |}.

Definition request (p : string) : BaseRequestWebsocket :=
  {| path := p;
     method := "GET";
     routing_exception := None;
     url_rule := None;
     view_args := None |}.

(** A task that has constructed nothing yet; three request objects
    have arrived from the transport. *)
Definition fresh : State :=
  {| app_ctxs := [];
     request_websockets := [request "/"; request "/ws"; request "/missing"];
     ctxs := [];
     _app_ctx_stack := ∅;
     _request_ctx_stack := ∅;
     _websocket_ctx_stack := ∅ |}.

(** A [RequestContext] for "/" has been constructed (address 0). *)
Definition constructed : State :=
  state_after (RequestContext__init__ quart_app 0%nat) fresh.

(** As [constructed], inside [async with app.app_context()] run by
    task 0: the [AppContext] at address 0 is active with count 1. *)
Definition in_app_context : State :=
  state_after (a <- app_context quart_app ;; AppContext__aenter__ 0%nat a) constructed.

(** The [AppContext] that is active in [in_app_context]. *)
Definition active : AppContext :=
  {| app := quart_app;
     url_adapter := route None;
     g := ∅;
     _app_reference_count := 1 |}.

(** An error raised inside a handler body. *)
Definition boom : Exn := RuntimeError "boom".

(** As [constructed], with the request context entered by task 0. *)
Definition in_request : State :=
  state_after (RequestContext__aenter__ 0%nat 0%nat) constructed.

End Sample.

(** ** Further methods and drivers *)

(** [RequestContext.request] and [WebsocketContext.websocket]: the
    [cast] returns the object held in [request_websocket]. *)
Definition RequestContext_request (self : addr) : M addr :=
  c <- deref ctxs self ;; ret (request_websocket c).

Definition WebsocketContext_websocket (self : addr) : M addr :=
  c <- deref ctxs self ;; ret (request_websocket c).

(** [_AppCtxGlobals.__repr__]; [object__repr__] is what
    [object.__repr__(self)] gives for the instance. *)
Definition _AppCtxGlobals__repr__ (task : Task) (object__repr__ : string) : M string :=
  top <- LocalStack_top task AppStack ;;
  match top with
  | Some ctx =>
      c <- deref app_ctxs ctx ;;
      ret (String.append "<quart.g of " (String.append (name (app c)) ">"))
  | None => ret object__repr__
  end.

(** Running a computation [n] times in a row, as [n] nested scopes do
    on the way in, or on the way out. *)
Fixpoint times (n : nat) (m : M unit) : M unit :=
  match n with
  | O => ret tt
  | S n' => m ;;; times n' m
  end.

(** More of what a task observes. *)
Definition session_of (ctx : addr) (s : State) : option (option Session) :=
  session <$> ctxs s !! ctx.

Definition matched_rule (rw : addr) (s : State) : option (option Rule) :=
  url_rule <$> request_websockets s !! rw.

Definition matched_args (rw : addr) (s : State) : option (option ViewArgs) :=
  view_args <$> request_websockets s !! rw.

Definition is_appcontext_pushed (ev : Event) : bool :=
  match ev with appcontext_pushed => true | _ => false end.

Definition pushed_notifications (evs : list Event) : nat :=
  length (filter (fun ev => is_appcontext_pushed ev = true) evs).

(** More sample states. *)
Module MoreSamples.

(** A [WebsocketContext] for "/ws" has been constructed (address 0). *)
Definition ws_constructed : State :=
  state_after (WebsocketContext__init__ Sample.quart_app 1%nat) Sample.fresh.

(** As [ws_constructed], with the websocket context entered by task 0. *)
Definition in_websocket : State :=
  state_after (WebsocketContext__aenter__ 0%nat 0%nat) ws_constructed.

(** Task 0 is inside two request contexts for "/", the one at address
    1 entered inside the one at address 0. *)
Definition nested_requests : State :=
  state_after
    (inner <- RequestContext__init__ Sample.quart_app 0%nat ;;
     RequestContext__aenter__ 0%nat inner)
    Sample.in_request.

(** A request object that still carries the outcome of an earlier match. *)
Definition stale_request (p : string) : BaseRequestWebsocket :=
  {| path := p;
     method := "GET";
     routing_exception := Some MethodNotAllowed;
     url_rule := Some Sample.ws_rule;
     view_args := Some [("id", "7")] |}.

(** [Sample.fresh] with two such objects, at addresses 3 and 4. *)
Definition with_stale_requests : State :=
  set_request_websockets (fun l => l ++ [stale_request "/"; stale_request "/gone"])
    Sample.fresh.

(** An application whose adapter fails outside the routing classes, and
    whose app-context teardown always raises. *)
Definition broken_app : Quart :=
  {| name := "broken";
     create_url_adapter := fun _ => {| match_ := Raise (RuntimeError "no map") |};
     open_session := fun _ => Some (SecureCookieSession [("user", "ada")]);
     make_null_session := NullSession;
     teardown_request_funcs := fun _ _ => None;
     teardown_appcontext_funcs := fun _ => Some Sample.boom |}.

(** Task 0 is inside a request context of [broken_app] (the context is
    at address 0, on the request object at address 0). *)
Definition in_broken_request : State :=
  state_after
    (RequestContext__aenter__ 0%nat 0%nat)
    (set_ctxs
       (fun l => l ++ [constructed_ctx (RequestContext []) broken_app 0%nat
                         (Sample.request "/")])
       Sample.fresh).

End MoreSamples.

(** * Properties *)

(** Runs the monad operations and the store updates of a goal. *)
Ltac run_M :=
  cbv beta iota zeta delta
    [bind ret raise gets modify emit deref try_finally try_except
     new_AppContext new_ctx store_AppContext store_request_websocket store_ctx
     LocalStack_push LocalStack_pop LocalStack_top
     app_do_teardown_appcontext app_do_teardown_request url_adapter_match_call
     app_context AppContext__init__
     set_app_ctxs set_request_websockets set_ctxs set_stack get_stack];
  cbn.

Lemma insert_last {A} (l : list A) (x y : A) :
  <[length l := y]> (l ++ [x]) = l ++ [y].
Proof. rewrite insert_app_r_alt by lia. rewrite Nat.sub_diag. reflexivity. Qed.

Lemma stack_of_insert (task : Task) (l : list addr) (m : gmap Task (list addr)) :
  stack_of task (<[task := l]> m) = l.
Proof. unfold stack_of. by rewrite lookup_insert_eq. Qed.

Lemma stack_of_insert_ne (task other : Task) (l : list addr) (m : gmap Task (list addr)) :
  task ≠ other -> stack_of other (<[task := l]> m) = stack_of other m.
Proof. intros Hne. unfold stack_of. by rewrite lookup_insert_ne. Qed.

Lemma AppContext_pop_run task self exc s c :
  app_ctxs s !! self = Some c ->
  let n := _app_reference_count c - 1 in
  let s1 := set_app_ctxs (fun l => <[self := incr_reference_count (-1) c]> l) s in
  let hook := if decide (n <= 0) then teardown_appcontext_funcs (app c) exc else None in
  let called := if decide (n <= 0) then [do_teardown_appcontext exc] else [] in
  AppContext_pop task self exc s =
    match app_stack task s with
    | [] => (Raise EmptyStackError, s1, called)
    | _ :: rest =>
        let s2 := set_stack AppStack (<[task := rest]> (_app_ctx_stack s)) s1 in
        match hook with
        | Some e => (Raise e, s2, called)
        | None => (Ok tt, s2, called ++ [appcontext_popped])
        end
    end.
Proof.
  intros Hc n s1 hook called.
  assert (Hlt : (self < length (app_ctxs s))%nat) by (eapply lookup_lt_Some; eauto).
  unfold AppContext_pop, bind, deref, store_AppContext, modify, try_finally,
    app_do_teardown_appcontext, LocalStack_pop, emit, ret, raise, bind, app_stack.
  rewrite Hc. cbn.
  rewrite list_lookup_insert_eq by done. cbn.
  subst hook called n.
  replace (_app_reference_count c - 1) with (_app_reference_count c + -1) by lia.
  destruct (decide (_app_reference_count c + -1 <= 0)) as [Hle|Hgt].
  - cbn.
    destruct (teardown_appcontext_funcs (app c) exc) as [e|]; cbn;
      destruct (stack_of task (_app_ctx_stack s)); cbn; reflexivity.
  - cbn.
    destruct (stack_of task (_app_ctx_stack s)); cbn; reflexivity.
Qed.

(** C2: [AppContext.pop] decrements the reference count; the
    application's app-context teardown is called, with the error given
    to [pop], exactly when the new count is at most 0; the top of the
    task's app-context stack is removed on every path; and when the
    teardown raises, that failure is the outcome of [pop], in a state
    where the stack entry is already gone. *)
Theorem AppContext_pop_teardown_then_removal task self exc s c :
  app_ctxs s !! self = Some c ->
  let n := _app_reference_count c - 1 in
  let s' := state_after (AppContext_pop task self exc) s in
  let evs := calls (AppContext_pop task self exc) s in
  reference_count self s' = Some n /\
  (do_teardown_appcontext exc ∈ evs <-> n <= 0) /\
  (forall e, do_teardown_appcontext e ∈ evs -> e = exc) /\
  app_stack task s' = tail (app_stack task s) /\
  (forall e, app_stack task s <> [] -> n <= 0 ->
     teardown_appcontext_funcs (app c) exc = Some e ->
     outcome (AppContext_pop task self exc) s = Raise e).
Proof.
  intros Hc n s' evs.
  assert (Hlt : (self < length (app_ctxs s))%nat) by (eapply lookup_lt_Some; eauto).
  subst s' evs. unfold state_after, calls, outcome.
  rewrite (AppContext_pop_run task self exc s c Hc). fold n.
  assert (Hcount : reference_count self
            (set_app_ctxs (fun l => <[self := incr_reference_count (-1) c]> l) s) = Some n).
  { unfold reference_count. cbn. rewrite list_lookup_insert_eq by done. cbn.
    subst n. f_equal; lia. }
  destruct (app_stack task s) as [|top rest] eqn:Hst; cbn -[set_app_ctxs].
  - split; [exact Hcount|].
    destruct (decide (n <= 0)) as [Hle|Hgt].
    + repeat split; try done.
      * intros _. apply list_elem_of_singleton. reflexivity.
      * intros e He. apply list_elem_of_singleton in He. congruence.
    + repeat split; try done.
      * intros He. inversion He.
      * intros e He. inversion He.
  - destruct (decide (n <= 0)) as [Hle|Hgt].
    + destruct (teardown_appcontext_funcs (app c) exc) as [e0|] eqn:Hhook;
        cbn -[set_app_ctxs].
      * repeat split; try done.
        -- intros _. apply list_elem_of_singleton. reflexivity.
        -- intros e He. apply list_elem_of_singleton in He. congruence.
        -- unfold app_stack. cbn. apply stack_of_insert.
        -- intros e _ _ He. congruence.
      * repeat split; try done.
        -- intros _. apply list_elem_of_here.
        -- intros e He. apply elem_of_cons in He as [He|He]; [congruence|].
           apply list_elem_of_singleton in He. discriminate.
        -- unfold app_stack. cbn. apply stack_of_insert.
    + cbn -[set_app_ctxs]. repeat split; try done.
      * intros He. apply list_elem_of_singleton in He. discriminate.
      * intros e He. apply list_elem_of_singleton in He. discriminate.
      * unfold app_stack. cbn. apply stack_of_insert.
Qed.

Lemma _BaseRequestWebsocketContext__aexit__run task self exc s c :
  ctxs s !! self = Some c ->
  _BaseRequestWebsocketContext__aexit__ task self exc s =
    AppContext_pop task (length (app_ctxs s)) exc
      (set_app_ctxs (fun l => l ++ [initial_AppContext (ctx_app c)]) s).
Proof.
  intros Hc.
  unfold _BaseRequestWebsocketContext__aexit__, bind, deref, app_context,
    AppContext__init__, new_AppContext.
  rewrite Hc.
  destruct (AppContext_pop task (length (app_ctxs s)) exc _) as [[r s2] evs].
  reflexivity.
Qed.

Lemma RequestContext__aexit__run task self exc s c :
  ctxs s !! self = Some c ->
  RequestContext__aexit__ task self exc s =
    match teardown_request_funcs (ctx_app c) exc self with
    | Some e => (Raise e, s, [do_teardown_request exc self])
    | None =>
        match request_stack task s with
        | [] => (Raise EmptyStackError, s, [do_teardown_request exc self])
        | _ :: rest =>
            let m := _BaseRequestWebsocketContext__aexit__ task self exc in
            let s1 := set_stack RequestStack (<[task := rest]> (_request_ctx_stack s)) s in
            (outcome m s1, state_after m s1, do_teardown_request exc self :: calls m s1)
        end
    end.
Proof.
  intros Hc.
  unfold RequestContext__aexit__, bind, deref, app_do_teardown_request, emit, ret,
    raise, LocalStack_pop, request_stack, outcome, state_after, calls.
  rewrite Hc. cbn -[_BaseRequestWebsocketContext__aexit__].
  destruct (teardown_request_funcs (ctx_app c) exc self) as [e|]; [reflexivity|].
  cbn -[_BaseRequestWebsocketContext__aexit__].
  destruct (stack_of task (_request_ctx_stack s)) as [|top rest];
    cbn -[_BaseRequestWebsocketContext__aexit__]; [reflexivity|].
  destruct (_BaseRequestWebsocketContext__aexit__ task self exc _) as [[r s2] evs].
  reflexivity.
Qed.

Lemma _BaseRequestWebsocketContext__aenter__run task self s c r :
  ctxs s !! self = Some c ->
  request_websockets s !! request_websocket c = Some r ->
  _BaseRequestWebsocketContext__aenter__ task self s =
    match app_stack task s with
    | [] =>
        let a := length (app_ctxs s) in
        (Ok self,
         set_ctxs (fun l => <[self := entered c r]> l)
           (set_stack AppStack (<[task := [a]]> (_app_ctx_stack s))
              (set_app_ctxs
                 (fun l => l ++ [incr_reference_count 1 (initial_AppContext (ctx_app c))]) s)),
         [appcontext_pushed])
    | _ :: _ => (Ok self, set_ctxs (fun l => <[self := entered c r]> l) s, [])
    end.
Proof.
  intros Hc Hr.
  assert (Hlt : (self < length (ctxs s))%nat) by (eapply lookup_lt_Some; eauto).
  unfold _BaseRequestWebsocketContext__aenter__, AppContext_push, app_stack, entered.
  run_M. rewrite Hc. run_M.
  destruct (stack_of task (_app_ctx_stack s)) as [|top rest] eqn:Hst; run_M.
  - rewrite list_lookup_middle by reflexivity. run_M.
    rewrite Hst, Hr. run_M.
    rewrite list_lookup_insert_eq by done. run_M.
    rewrite insert_last.
    destruct (open_session (ctx_app c) r) as [sess|]; run_M.
    + reflexivity.
    + rewrite list_insert_insert_eq. reflexivity.
  - rewrite Hr. run_M.
    rewrite list_lookup_insert_eq by done. run_M.
    destruct (open_session (ctx_app c) r) as [sess|]; run_M.
    + reflexivity.
    + rewrite list_insert_insert_eq. reflexivity.
Qed.

Lemma RequestContext__aenter__run task self s c r :
  ctxs s !! self = Some c ->
  request_websockets s !! request_websocket c = Some r ->
  let m := _BaseRequestWebsocketContext__aenter__ task self in
  let s1 := state_after m s in
  RequestContext__aenter__ task self s =
    (Ok self,
     set_stack RequestStack
       (<[task := self :: request_stack task s1]> (_request_ctx_stack s1)) s1,
     calls m s).
Proof.
  intros Hc Hr m s1. subst m s1.
  unfold RequestContext__aenter__, state_after, calls, request_stack.
  cbv beta iota zeta delta [bind].
  rewrite (_BaseRequestWebsocketContext__aenter__run task self s c r Hc Hr).
  destruct (app_stack task s); run_M; reflexivity.
Qed.

(** The state a task is in once it has entered a request context. *)
Lemma RequestContext__aenter__state task self s c r :
  ctxs s !! self = Some c ->
  request_websockets s !! request_websocket c = Some r ->
  let s1 := state_after (RequestContext__aenter__ task self) s in
  outcome (RequestContext__aenter__ task self) s = Ok self /\
  ctxs s1 !! self = Some (entered c r) /\
  request_stack task s1 = self :: request_stack task s /\
  app_stack task s1 =
    match app_stack task s with
    | [] => [length (app_ctxs s)]
    | top :: rest => top :: rest
    end /\
  app_ctxs s1 =
    match app_stack task s with
    | [] => app_ctxs s ++ [incr_reference_count 1 (initial_AppContext (ctx_app c))]
    | _ :: _ => app_ctxs s
    end /\
  calls (RequestContext__aenter__ task self) s =
    match app_stack task s with
    | [] => [appcontext_pushed]
    | _ :: _ => []
    end.
Proof.
  intros Hc Hr s1. subst s1.
  assert (Hlt : (self < length (ctxs s))%nat) by (eapply lookup_lt_Some; eauto).
  unfold outcome, state_after, calls.
  rewrite (RequestContext__aenter__run task self s c r Hc Hr).
  unfold state_after, calls.
  rewrite (_BaseRequestWebsocketContext__aenter__run task self s c r Hc Hr).
  unfold request_stack at 3 4. unfold app_stack at 1 3.
  destruct (app_stack task s) as [|top rest] eqn:Hst; run_M.
  - rewrite list_lookup_insert_eq by done.
    unfold request_stack, app_stack. run_M. rewrite !stack_of_insert. done.
  - rewrite list_lookup_insert_eq by done.
    unfold request_stack, app_stack in *. run_M. rewrite !stack_of_insert, Hst. done.
Qed.

(** What the inherited exit does: it pops a newly constructed
    [AppContext], whose count goes from 0 to -1. *)
Lemma _BaseRequestWebsocketContext__aexit__state task self exc s c :
  ctxs s !! self = Some c ->
  let m := _BaseRequestWebsocketContext__aexit__ task self exc in
  let hook := teardown_appcontext_funcs (ctx_app c) exc in
  app_ctxs (state_after m s) =
    app_ctxs s ++ [incr_reference_count (-1) (initial_AppContext (ctx_app c))] /\
  app_stack task (state_after m s) = tail (app_stack task s) /\
  request_stack task (state_after m s) = request_stack task s /\
  outcome m s =
    match app_stack task s, hook with
    | [], _ => Raise EmptyStackError
    | _ :: _, Some e => Raise e
    | _ :: _, None => Ok tt
    end /\
  calls m s =
    do_teardown_appcontext exc ::
    match app_stack task s, hook with
    | _ :: _, None => [appcontext_popped]
    | _, _ => []
    end.
Proof.
  intros Hc m hook. subst m hook.
  unfold outcome, state_after, calls.
  rewrite (_BaseRequestWebsocketContext__aexit__run task self exc s c Hc).
  rewrite (AppContext_pop_run task (length (app_ctxs s)) exc _
             (initial_AppContext (ctx_app c)))
    by (cbn; apply list_lookup_middle; reflexivity).
  unfold app_stack, request_stack. run_M.
  destruct (decide (0 - 1 <= 0)) as [_|?]; [|lia].
  destruct (stack_of task (_app_ctx_stack s)) as [|a arest] eqn:Hst; run_M.
  - rewrite insert_last, Hst. done.
  - destruct (teardown_appcontext_funcs (ctx_app c) exc) as [e|]; run_M;
      rewrite insert_last, stack_of_insert; done.
Qed.

Lemma RequestContext__aexit__state task self exc s c top rest :
  ctxs s !! self = Some c ->
  teardown_request_funcs (ctx_app c) exc self = None ->
  request_stack task s = top :: rest ->
  let m := RequestContext__aexit__ task self exc in
  let hook := teardown_appcontext_funcs (ctx_app c) exc in
  app_ctxs (state_after m s) =
    app_ctxs s ++ [incr_reference_count (-1) (initial_AppContext (ctx_app c))] /\
  app_stack task (state_after m s) = tail (app_stack task s) /\
  request_stack task (state_after m s) = rest /\
  outcome m s =
    match app_stack task s, hook with
    | [], _ => Raise EmptyStackError
    | _ :: _, Some e => Raise e
    | _ :: _, None => Ok tt
    end /\
  calls m s =
    do_teardown_request exc self :: do_teardown_appcontext exc ::
    match app_stack task s, hook with
    | _ :: _, None => [appcontext_popped]
    | _, _ => []
    end.
Proof.
  intros Hc Hhook Hst m hook. subst m hook.
  unfold outcome, state_after, calls.
  rewrite (RequestContext__aexit__run task self exc s c Hc), Hhook, Hst.
  cbv zeta. cbn [fst snd].
  set (s1 := set_stack RequestStack (<[task:=rest]> (_request_ctx_stack s)) s).
  assert (Hc1 : ctxs s1 !! self = Some c) by exact Hc.
  destruct (_BaseRequestWebsocketContext__aexit__state task self exc s1 c Hc1)
    as (Happ & Hastack & Hrstack & Hout & Hcalls).
  rewrite Happ, Hastack, Hrstack, Hout, Hcalls.
  replace (request_stack task s1) with rest
    by (unfold request_stack, s1; cbn; by rewrite stack_of_insert).
  done.
Qed.

Lemma RequestContext__init__run a rw s r :
  request_websockets s !! rw = Some r ->
  let r0 := set_routing_exception None r in
  let st := constructed_state (RequestContext []) a rw r in
  RequestContext__init__ a rw s =
    match match_ (create_url_adapter a (Some r)) with
    | Ok res =>
        (Ok (length (ctxs s)), st (set_match (fst res) (snd res) r0) s,
         [url_adapter_match rw])
    | Raise e =>
        if routing_failure e
        then (Ok (length (ctxs s)), st (set_routing_exception (Some e) r0) s,
              [url_adapter_match rw])
        else (Raise e, st r0 s, [url_adapter_match rw])
    end.
Proof.
  intros Hr r0 st. subst r0 st.
  assert (Hlt : (rw < length (request_websockets s))%nat) by (eapply lookup_lt_Some; eauto).
  unfold RequestContext__init__, _BaseRequestWebsocketContext__init__,
    self_match_request, match_request, constructed_state, constructed_ctx.
  run_M. rewrite Hr. run_M.
  rewrite list_lookup_middle by reflexivity. run_M.
  rewrite list_lookup_middle by reflexivity. run_M.
  destruct (match_ (create_url_adapter a (Some r))) as [[rule args]|e]; run_M.
  - rewrite list_lookup_insert_eq by done. run_M.
    rewrite list_lookup_middle by reflexivity. run_M.
    rewrite list_insert_insert_eq, insert_last. reflexivity.
  - destruct (routing_failure e); run_M.
    + rewrite list_lookup_insert_eq by done. run_M.
      rewrite list_lookup_middle by reflexivity. run_M.
      rewrite list_insert_insert_eq, insert_last. reflexivity.
    + reflexivity.
Qed.

Lemma WebsocketContext__init__run a rw s r :
  request_websockets s !! rw = Some r ->
  let r0 := set_routing_exception None r in
  let st := constructed_state WebsocketContext a rw r in
  WebsocketContext__init__ a rw s =
    match match_ (create_url_adapter a (Some r)) with
    | Ok res =>
        (Ok (length (ctxs s)),
         st (if is_websocket (fst res)
             then set_match (fst res) (snd res) r0
             else set_routing_exception (Some BadRequest)
                    (set_match (fst res) (snd res) r0)) s,
         [url_adapter_match rw])
    | Raise e =>
        if routing_failure e
        then (Ok (length (ctxs s)), st (set_routing_exception (Some e) r0) s,
              [url_adapter_match rw])
        else (Raise e, st r0 s, [url_adapter_match rw])
    end.
Proof.
  intros Hr r0 st. subst r0 st.
  assert (Hlt : (rw < length (request_websockets s))%nat) by (eapply lookup_lt_Some; eauto).
  unfold WebsocketContext__init__, _BaseRequestWebsocketContext__init__,
    self_match_request, WebsocketContext_match_request, match_request,
    constructed_state, constructed_ctx.
  run_M. rewrite Hr. run_M.
  rewrite list_lookup_middle by reflexivity. run_M.
  rewrite list_lookup_middle by reflexivity. run_M.
  destruct (match_ (create_url_adapter a (Some r))) as [[rule args]|e]; run_M.
  - rewrite list_lookup_insert_eq by done. run_M.
    rewrite list_lookup_middle by reflexivity. run_M.
    rewrite list_lookup_insert_eq by (rewrite length_insert; done). run_M.
    destruct (is_websocket rule); run_M.
    + rewrite list_insert_insert_eq. reflexivity.
    + rewrite !list_insert_insert_eq. reflexivity.
  - destruct (routing_failure e) eqn:Hrf; run_M.
    + rewrite list_lookup_insert_eq by done. run_M.
      rewrite list_lookup_middle by reflexivity. run_M.
      rewrite list_lookup_insert_eq by (rewrite length_insert; done). run_M.
      rewrite list_insert_insert_eq. reflexivity.
    + reflexivity.
Qed.

Lemma deferred_routing_failure_constructed cls a rw r r' s :
  request_websockets s !! rw = Some r ->
  deferred_routing_failure rw (constructed_state cls a rw r r' s)
  = Some (routing_exception r').
Proof.
  intros Hr. unfold deferred_routing_failure, constructed_state. cbn.
  rewrite list_lookup_insert_eq by (eapply lookup_lt_Some; eauto). reflexivity.
Qed.

(** C4: constructing a [RequestContext] or a [WebsocketContext] asks
    the adapter for a match exactly once; when the match fails with
    [NotFound], [MethodNotAllowed] or [RedirectRequired] the
    construction returns the new context and the failure is stored in
    [routing_exception] of the request/websocket object; whatever the
    construction raises is none of these three. *)
Theorem construction_matches_once_and_defers a rw s r :
  request_websockets s !! rw = Some r ->
  forall init,
    init = RequestContext__init__ a rw \/ init = WebsocketContext__init__ a rw ->
    match_calls (calls init s) = 1%nat /\
    (forall e, match_ (create_url_adapter a (Some r)) = Raise e ->
       routing_failure e = true ->
       outcome init s = Ok (length (ctxs s)) /\
       deferred_routing_failure rw (state_after init s) = Some (Some e)) /\
    (forall e, outcome init s = Raise e -> routing_failure e = false).
Proof.
  intros Hr init [-> | ->]; unfold calls, outcome, state_after.
  - rewrite (RequestContext__init__run a rw s r Hr).
    destruct (match_ (create_url_adapter a (Some r))) as [res|e0] eqn:Hm.
    + cbn. split; [reflexivity|]. split; intros e He; discriminate.
    + destruct (routing_failure e0) eqn:Hrf; cbn.
      * split; [reflexivity|]. split; [|discriminate].
        intros e He _. injection He as <-. split; [reflexivity|].
        by rewrite deferred_routing_failure_constructed.
      * split; [reflexivity|]. split.
        -- intros e He Hrf'. congruence.
        -- intros e He. congruence.
  - rewrite (WebsocketContext__init__run a rw s r Hr).
    destruct (match_ (create_url_adapter a (Some r))) as [res|e0] eqn:Hm.
    + cbn. split; [reflexivity|]. split; intros e He; discriminate.
    + destruct (routing_failure e0) eqn:Hrf; cbn.
      * split; [reflexivity|]. split; [|discriminate].
        intros e He _. injection He as <-. split; [reflexivity|].
        by rewrite deferred_routing_failure_constructed.
      * split; [reflexivity|]. split.
        -- intros e He Hrf'. congruence.
        -- intros e He. congruence.
Qed.

(** C5: constructing a [WebsocketContext] on an input whose match
    succeeds with a route that is not websocket-capable returns the new
    context and stores [BadRequest] in [routing_exception] of the
    websocket object. *)
Theorem WebsocketContext_on_plain_route_defers_BadRequest a rw s r rule args :
  request_websockets s !! rw = Some r ->
  match_ (create_url_adapter a (Some r)) = Ok (rule, args) ->
  is_websocket rule = false ->
  outcome (WebsocketContext__init__ a rw) s = Ok (length (ctxs s)) /\
  deferred_routing_failure rw (state_after (WebsocketContext__init__ a rw) s)
  = Some (Some BadRequest).
Proof.
  intros Hr Hm Hws. unfold outcome, state_after.
  rewrite (WebsocketContext__init__run a rw s r Hr), Hm. cbn [fst snd].
  rewrite Hws. split; [reflexivity|].
  by rewrite deferred_routing_failure_constructed.
Qed.

(** C3: in a task with no [AppContext] active, entering and then
    exiting a [RequestContext] whose teardown hooks do not raise
    succeeds, leaves the app-context stack empty, leaves the request
    stack as it was before the entry (empty when no request context was
    active), and calls the application's app-context teardown exactly
    once. *)
Theorem RequestContext_enter_exit_from_no_context task self exc s c r fs :
  ctxs s !! self = Some c ->
  subclass c = RequestContext fs ->
  request_websockets s !! request_websocket c = Some r ->
  app_stack task s = [] ->
  teardown_request_funcs (ctx_app c) exc self = None ->
  teardown_appcontext_funcs (ctx_app c) exc = None ->
  let enter := RequestContext__aenter__ task self in
  let exit := RequestContext__aexit__ task self exc in
  let s1 := state_after enter s in
  let s2 := state_after exit s1 in
  outcome enter s = Ok self /\
  outcome exit s1 = Ok tt /\
  app_stack task s2 = [] /\
  request_stack task s2 = request_stack task s /\
  (request_stack task s = [] -> request_stack task s2 = []) /\
  teardown_appcontext_calls (calls enter s ++ calls exit s1) = 1%nat.
Proof.
  intros Hc _ Hr Hst Hreq Happ enter exit s1 s2.
  destruct (RequestContext__aenter__state task self s c r Hc Hr)
    as (Hout1 & Hc1 & Hrs1 & Has1 & _ & Hcalls1).
  fold enter s1 in Hout1, Hc1, Hrs1, Has1, Hcalls1.
  rewrite Hst in Has1, Hcalls1.
  assert (Hreq1 : teardown_request_funcs (ctx_app (entered c r)) exc self = None)
    by exact Hreq.
  destruct (RequestContext__aexit__state task self exc s1 (entered c r) self
              (request_stack task s) Hc1 Hreq1 Hrs1)
    as (_ & Has2 & Hrs2 & Hout2 & Hcalls2).
  fold exit s2 in Has2, Hrs2, Hout2, Hcalls2.
  rewrite Has1 in Has2, Hout2, Hcalls2.
  change (teardown_appcontext_funcs (ctx_app (entered c r)) exc)
    with (teardown_appcontext_funcs (ctx_app c) exc) in Hout2, Hcalls2.
  rewrite Happ in Hout2, Hcalls2.
  repeat split; try done.
  - congruence.
  - rewrite Hcalls1, Hcalls2. reflexivity.
Qed.

(** C7: what [RequestContext.__aexit__] does when the application's
    request-teardown hook raises: the failure reaches the caller with
    the state untouched, so the context is still on the request stack
    and the app context has not been exited. *)
Theorem RequestContext_exit_teardown_failure_skips_cleanup task self exc s c e :
  ctxs s !! self = Some c ->
  teardown_request_funcs (ctx_app c) exc self = Some e ->
  let exit := RequestContext__aexit__ task self exc in
  outcome exit s = Raise e /\
  state_after exit s = s /\
  calls exit s = [do_teardown_request exc self].
Proof.
  intros Hc Hhook exit. subst exit. unfold outcome, state_after, calls.
  rewrite (RequestContext__aexit__run task self exc s c Hc), Hhook. done.
Qed.

(** C1, amended: in a task where an [AppContext] is active with
    reference count 1, entering a [RequestContext] makes no implicit
    push: it sends no notification, the active [AppContext] stays on
    top of the app-context stack and its reference count stays 1; after
    the exit its reference count is 1 as well. *)
Theorem RequestContext_enter_reuses_active_AppContext task self exc s c r a rest c0 :
  ctxs s !! self = Some c ->
  request_websockets s !! request_websocket c = Some r ->
  app_stack task s = a :: rest ->
  app_ctxs s !! a = Some c0 ->
  _app_reference_count c0 = 1 ->
  let enter := RequestContext__aenter__ task self in
  let exit := RequestContext__aexit__ task self exc in
  let s1 := state_after enter s in
  let s2 := state_after exit s1 in
  outcome enter s = Ok self /\
  calls enter s = [] /\
  app_stack task s1 = a :: rest /\
  reference_count a s1 = Some 1 /\
  reference_count a s2 = Some 1.
Proof.
  intros Hc Hr Hst Ha Hcount enter exit s1 s2.
  destruct (RequestContext__aenter__state task self s c r Hc Hr)
    as (Hout1 & Hc1 & Hrs1 & Has1 & Hctxs1 & Hcalls1).
  fold enter s1 in Hout1, Hc1, Hrs1, Has1, Hctxs1, Hcalls1.
  rewrite Hst in Has1, Hctxs1, Hcalls1.
  assert (Hcount1 : reference_count a s1 = Some 1).
  { unfold reference_count. rewrite Hctxs1, Ha. cbn. by rewrite Hcount. }
  repeat split; try done.
  destruct (teardown_request_funcs (ctx_app (entered c r)) exc self) as [e|] eqn:Hhook.
  - assert (Hsame : s2 = s1).
    { unfold s2, exit, state_after.
      by rewrite (RequestContext__aexit__run task self exc s1 (entered c r) Hc1), Hhook. }
    by rewrite Hsame.
  - destruct (RequestContext__aexit__state task self exc s1 (entered c r) self
                (request_stack task s) Hc1 Hhook Hrs1) as (Hctxs2 & _).
    fold exit s2 in Hctxs2.
    unfold reference_count in *. rewrite Hctxs2.
    rewrite lookup_app_l; [done|].
    rewrite Hctxs1. eapply lookup_lt_Some; eauto.
Qed.

Lemma after_this_request_run task func s ctx rest c fs :
  request_stack task s = ctx :: rest ->
  ctxs s !! ctx = Some c ->
  subclass c = RequestContext fs ->
  after_this_request task func s =
    (Ok func,
     set_ctxs (fun l => <[ctx := set_subclass (RequestContext (fs ++ [func])) c]> l) s,
     []).
Proof.
  intros Hst Hc Hsub. unfold after_this_request, request_stack in *. run_M.
  rewrite Hst. run_M. rewrite Hc, Hsub. reflexivity.
Qed.

Lemma after_this_request_outside task func s :
  request_stack task s = [] ->
  after_this_request task func s = (Raise AttributeError, s, []).
Proof.
  intros Hst. unfold after_this_request, request_stack in *. run_M.
  rewrite Hst. reflexivity.
Qed.

Lemma after_this_request_each_functions task funcs : forall s ctx rest c fs,
  request_stack task s = ctx :: rest ->
  ctxs s !! ctx = Some c ->
  subclass c = RequestContext fs ->
  outcome (after_this_request_each task funcs) s = Ok tt /\
  after_request_functions ctx (state_after (after_this_request_each task funcs) s)
  = Some (fs ++ funcs).
Proof.
  induction funcs as [|func funcs IH]; intros s ctx rest c fs Hst Hc Hsub.
  - cbn. unfold after_request_functions. rewrite Hc. cbn. rewrite Hsub, app_nil_r. done.
  - assert (Hlt : (ctx < length (ctxs s))%nat) by (eapply lookup_lt_Some; eauto).
    unfold outcome, state_after. cbn [after_this_request_each].
    cbv beta iota zeta delta [bind].
    rewrite (after_this_request_run task func s ctx rest c fs Hst Hc Hsub).
    set (s1 := set_ctxs _ s).
    destruct (IH s1 ctx rest (set_subclass (RequestContext (fs ++ [func])) c)
                (fs ++ [func])) as [Hout Hfs].
    + exact Hst.
    + unfold s1. cbn. by rewrite list_lookup_insert_eq.
    + reflexivity.
    + unfold outcome, state_after in Hout, Hfs.
      destruct (after_this_request_each task funcs s1) as [[r2 s2] l2].
      cbn in *. rewrite Hout, Hfs, <- app_assoc. done.
Qed.

(** C6: [after_this_request] fails, without changing anything, when
    the calling task has no [RequestContext] active (the failure is the
    [AttributeError] of the access on [None]); with one active the
    function is appended to that context's list, so functions
    registered one after the other are kept in registration order. *)
Theorem after_this_request_registers_in_order task func s :
  (request_stack task s = [] ->
     outcome (after_this_request task func) s = Raise AttributeError /\
     state_after (after_this_request task func) s = s) /\
  (forall ctx rest c fs,
     request_stack task s = ctx :: rest ->
     ctxs s !! ctx = Some c ->
     subclass c = RequestContext fs ->
     after_request_functions ctx (state_after (after_this_request task func) s)
     = Some (fs ++ [func]) /\
     forall funcs,
       after_request_functions ctx (state_after (after_this_request_each task funcs) s)
       = Some (fs ++ funcs)).
Proof.
  split.
  - intros Hst. unfold outcome, state_after.
    by rewrite (after_this_request_outside task func s Hst).
  - intros ctx rest c fs Hst Hc Hsub. split.
    + unfold state_after.
      rewrite (after_this_request_run task func s ctx rest c fs Hst Hc Hsub).
      unfold after_request_functions. cbn.
      rewrite list_lookup_insert_eq by (eapply lookup_lt_Some; eauto). reflexivity.
    + intros funcs.
      apply (after_this_request_each_functions task funcs s ctx rest c fs Hst Hc Hsub).
Qed.

(** C10: while a [RequestContext] is active, [after_this_request]
    returns the callable it was given. *)
Theorem after_this_request_returns_func task func s ctx rest c fs :
  request_stack task s = ctx :: rest ->
  ctxs s !! ctx = Some c ->
  subclass c = RequestContext fs ->
  outcome (after_this_request task func) s = Ok func.
Proof.
  intros Hst Hc Hsub. unfold outcome.
  by rewrite (after_this_request_run task func s ctx rest c fs Hst Hc Hsub).
Qed.

(** C8: [has_app_context], [has_request_context] and
    [has_websocket_context] return, leave the state as it is, call no
    collaborator, and answer [true] exactly when the calling task's
    stack is not empty. *)
Theorem has_context_predicates task s :
  (exists b, has_app_context task s = (Ok b, s, []) /\
             (b = true <-> app_stack task s <> [])) /\
  (exists b, has_request_context task s = (Ok b, s, []) /\
             (b = true <-> request_stack task s <> [])) /\
  (exists b, has_websocket_context task s = (Ok b, s, []) /\
             (b = true <-> websocket_stack task s <> [])).
Proof.
  unfold has_app_context, has_request_context, has_websocket_context,
    app_stack, request_stack, websocket_stack.
  run_M.
  repeat split; eexists; (split; [reflexivity|]).
  - destruct (stack_of task (_app_ctx_stack s)); cbn; split; done.
  - destruct (stack_of task (_request_ctx_stack s)); cbn; split; done.
  - destruct (stack_of task (_websocket_ctx_stack s)); cbn; split; done.
Qed.

(** C9: [_AppCtxGlobals.pop] without a default raises [KeyError] on
    an absent key; with a default it returns the stored value and
    removes the key (the other keys stay) when the key is present, and
    returns the default and leaves the dictionary as it is when the key
    is absent. *)
Theorem AppCtxGlobals_pop_cases (name : string) (d : gmap string Any) :
  (d !! name = None ->
     _AppCtxGlobals.pop name None d = (Raise (KeyError name), d)) /\
  (forall dflt v, d !! name = Some v ->
     _AppCtxGlobals.pop name (Some dflt) d = (Ok v, delete name d) /\
     delete name d !! name = None /\
     forall other, other <> name -> delete name d !! other = d !! other) /\
  (forall dflt, d !! name = None ->
     _AppCtxGlobals.pop name (Some dflt) d = (Ok dflt, d)).
Proof.
  unfold _AppCtxGlobals.pop. split; [|split].
  - intros ->. reflexivity.
  - intros dflt v Hv. rewrite Hv. split; [reflexivity|]. split.
    + apply lookup_delete_eq.
    + intros other Hne. by apply lookup_delete_ne.
  - intros dflt ->. reflexivity.
Qed.

Lemma AppContext_pop_teardown_then_removal_witness :
  let pop := AppContext_pop 0%nat 0%nat (Some Sample.boom) in
  app_ctxs Sample.in_app_context !! 0%nat = Some Sample.active /\
  reference_count 0%nat (state_after pop Sample.in_app_context) = Some 0 /\
  do_teardown_appcontext (Some Sample.boom) ∈ calls pop Sample.in_app_context /\
  app_stack 0%nat (state_after pop Sample.in_app_context) = [] /\
  outcome pop Sample.in_app_context = Raise Sample.boom.
Proof.
  intros pop.
  pose proof (AppContext_pop_teardown_then_removal 0%nat 0%nat (Some Sample.boom)
                Sample.in_app_context Sample.active eq_refl) as H.
  cbv zeta in H. destruct H as (Hcount & Hcalled & _ & Hstack & Hraise).
  split; [reflexivity|].
  split; [exact Hcount|].
  split; [apply Hcalled; vm_compute; discriminate|].
  split; [exact Hstack|].
  apply Hraise; [vm_compute; discriminate | vm_compute; discriminate | reflexivity].
Defined.

Lemma RequestContext_enter_reuses_active_AppContext_witness :
  let enter := RequestContext__aenter__ 0%nat 0%nat in
  let exit := RequestContext__aexit__ 0%nat 0%nat None in
  let s1 := state_after enter Sample.in_app_context in
  let s2 := state_after exit s1 in
  app_stack 0%nat Sample.in_app_context = [0%nat] /\
  reference_count 0%nat Sample.in_app_context = Some 1 /\
  outcome enter Sample.in_app_context = Ok 0%nat /\
  calls enter Sample.in_app_context = [] /\
  app_stack 0%nat s1 = [0%nat] /\
  reference_count 0%nat s1 = Some 1 /\
  reference_count 0%nat s2 = Some 1.
Proof.
  intros enter exit s1 s2.
  split; [reflexivity|]. split; [reflexivity|].
  eapply (RequestContext_enter_reuses_active_AppContext 0%nat 0%nat None
            Sample.in_app_context); reflexivity.
Defined.

(** C1 as stated fails: with an [AppContext] active at count 1, the
    entry leaves the count at 1 instead of 2, and the exit calls the
    app-context teardown and empties the app-context stack. *)
Lemma RequestContext_nested_in_AppContext_counterexample :
  let enter := RequestContext__aenter__ 0%nat 0%nat in
  let exit := RequestContext__aexit__ 0%nat 0%nat None in
  let s := Sample.in_app_context in
  let s1 := state_after enter s in
  let s2 := state_after exit s1 in
  app_stack 0%nat s = [0%nat] /\
  reference_count 0%nat s = Some 1 /\
  reference_count 0%nat s1 = Some 1 /\
  teardown_appcontext_calls (calls exit s1) = 1%nat /\
  app_stack 0%nat s2 = [] /\
  ~ (reference_count 0%nat s1 = Some 2 /\
     reference_count 0%nat s2 = Some 1 /\
     teardown_appcontext_calls (calls exit s1) = 0%nat).
Proof.
  cbv zeta. repeat split; try (vm_compute; reflexivity).
  intros (Hcount & _). vm_compute in Hcount. discriminate.
Qed.

Lemma RequestContext_enter_exit_from_no_context_witness :
  let enter := RequestContext__aenter__ 0%nat 0%nat in
  let exit := RequestContext__aexit__ 0%nat 0%nat None in
  let s1 := state_after enter Sample.constructed in
  let s2 := state_after exit s1 in
  app_stack 0%nat Sample.constructed = [] /\
  outcome enter Sample.constructed = Ok 0%nat /\
  outcome exit s1 = Ok tt /\
  app_stack 0%nat s2 = [] /\
  request_stack 0%nat s2 = request_stack 0%nat Sample.constructed /\
  (request_stack 0%nat Sample.constructed = [] -> request_stack 0%nat s2 = []) /\
  teardown_appcontext_calls (calls enter Sample.constructed ++ calls exit s1) = 1%nat.
Proof.
  intros enter exit s1 s2.
  split; [reflexivity|].
  eapply (RequestContext_enter_exit_from_no_context 0%nat 0%nat None
            Sample.constructed); reflexivity.
Defined.

Lemma construction_matches_once_and_defers_witness :
  let init := RequestContext__init__ Sample.quart_app 2%nat in
  match_calls (calls init Sample.fresh) = 1%nat /\
  outcome init Sample.fresh = Ok 0%nat /\
  deferred_routing_failure 2%nat (state_after init Sample.fresh) = Some (Some NotFound).
Proof.
  intros init.
  destruct (construction_matches_once_and_defers Sample.quart_app 2%nat Sample.fresh
              (Sample.request "/missing") eq_refl init (or_introl eq_refl))
    as (Honce & Hdefer & _).
  split; [exact Honce|].
  exact (Hdefer NotFound eq_refl eq_refl).
Defined.

Lemma WebsocketContext_on_plain_route_defers_BadRequest_witness :
  let init := WebsocketContext__init__ Sample.quart_app 0%nat in
  outcome init Sample.fresh = Ok 0%nat /\
  deferred_routing_failure 0%nat (state_after init Sample.fresh) = Some (Some BadRequest).
Proof.
  exact (WebsocketContext_on_plain_route_defers_BadRequest Sample.quart_app 0%nat
           Sample.fresh (Sample.request "/") Sample.index_rule [] eq_refl eq_refl eq_refl).
Defined.

Lemma after_this_request_registers_in_order_witness :
  (outcome (after_this_request 0%nat 7%nat) Sample.fresh = Raise AttributeError /\
   state_after (after_this_request 0%nat 7%nat) Sample.fresh = Sample.fresh) /\
  after_request_functions 0%nat
    (state_after (after_this_request 0%nat 7%nat) Sample.in_request) = Some [7%nat] /\
  after_request_functions 0%nat
    (state_after (after_this_request_each 0%nat [7%nat; 8%nat; 9%nat]) Sample.in_request)
  = Some [7%nat; 8%nat; 9%nat].
Proof.
  split.
  - apply (after_this_request_registers_in_order 0%nat 7%nat Sample.fresh). reflexivity.
  - edestruct (after_this_request_registers_in_order 0%nat 7%nat Sample.in_request)
      as [_ Hin].
    edestruct (Hin 0%nat [] _ [] eq_refl eq_refl eq_refl) as [Hone Heach].
    split; [exact Hone | exact (Heach [7%nat; 8%nat; 9%nat])].
Defined.

Lemma RequestContext_exit_teardown_failure_skips_cleanup_witness :
  let exit := RequestContext__aexit__ 0%nat 0%nat (Some Sample.boom) in
  request_stack 0%nat Sample.in_request = [0%nat] /\
  app_stack 0%nat Sample.in_request = [0%nat] /\
  outcome exit Sample.in_request = Raise Sample.boom /\
  state_after exit Sample.in_request = Sample.in_request /\
  calls exit Sample.in_request = [do_teardown_request (Some Sample.boom) 0%nat].
Proof.
  intros exit.
  split; [reflexivity|]. split; [reflexivity|].
  eapply (RequestContext_exit_teardown_failure_skips_cleanup 0%nat 0%nat (Some Sample.boom)
            Sample.in_request); reflexivity.
Defined.

Lemma after_this_request_returns_func_witness :
  outcome (after_this_request 0%nat 7%nat) Sample.in_request = Ok 7%nat.
Proof.
  eapply (after_this_request_returns_func 0%nat 7%nat Sample.in_request); reflexivity.
Defined.

Lemma AppCtxGlobals_pop_cases_witness :
  _AppCtxGlobals.pop "user" None ∅ = (Raise (KeyError "user"), ∅) /\
  _AppCtxGlobals.pop "user" (Some PyNone) {["user" := PyStr "ada"]}
  = (Ok (PyStr "ada"), delete "user" {["user" := PyStr "ada"]}) /\
  _AppCtxGlobals.pop "user" (Some PyNone) ∅ = (Ok PyNone, ∅).
Proof.
  destruct (AppCtxGlobals_pop_cases "user" ∅) as (Hraise & _ & Hdflt).
  destruct (AppCtxGlobals_pop_cases "user" {["user" := PyStr "ada"]}) as (_ & Hfound & _).
  split; [exact (Hraise eq_refl)|].
  split; [exact (proj1 (Hfound PyNone (PyStr "ada") eq_refl)) | exact (Hdflt PyNone eq_refl)].
Defined.

(** * Further properties *)

Lemma bind_Ok {A B} (m : M A) (f : A -> M B) (s s1 : State) (a : A) (l1 : list Event) :
  m s = (Ok a, s1, l1) ->
  bind m f s = (outcome (f a) s1, state_after (f a) s1, l1 ++ calls (f a) s1).
Proof.
  intros Hm. unfold bind, outcome, state_after, calls. rewrite Hm.
  destruct (f a s1) as [[r s2] l2]. reflexivity.
Qed.

Lemma run_eta {A} (m : M A) (s : State) :
  m s = (outcome m s, state_after m s, calls m s).
Proof. unfold outcome, state_after, calls. by destruct (m s) as [[r s'] l]. Qed.

Lemma teardown_appcontext_calls_app (l1 l2 : list Event) :
  teardown_appcontext_calls (l1 ++ l2)
  = (teardown_appcontext_calls l1 + teardown_appcontext_calls l2)%nat.
Proof. unfold teardown_appcontext_calls. by rewrite filter_app, length_app. Qed.

Lemma pushed_notifications_app (l1 l2 : list Event) :
  pushed_notifications (l1 ++ l2)
  = (pushed_notifications l1 + pushed_notifications l2)%nat.
Proof. unfold pushed_notifications. by rewrite filter_app, length_app. Qed.

Lemma incr_reference_count_0 (c : AppContext) : incr_reference_count 0 c = c.
Proof. destruct c. unfold incr_reference_count. cbn. f_equal. lia. Qed.

Lemma incr_reference_count_add (a b : Z) (c : AppContext) :
  incr_reference_count a (incr_reference_count b c) = incr_reference_count (b + a) c.
Proof. unfold incr_reference_count. cbn. f_equal. lia. Qed.

Lemma AppContext_push_run task self s c :
  app_ctxs s !! self = Some c ->
  AppContext_push task self s =
    (Ok tt,
     set_stack AppStack (<[task := self :: app_stack task s]> (_app_ctx_stack s))
       (set_app_ctxs (fun l => <[self := incr_reference_count 1 c]> l) s),
     [appcontext_pushed]).
Proof.
  intros Hc. unfold AppContext_push, app_stack. run_M. rewrite Hc. reflexivity.
Qed.

Lemma AppContext_push_times task self n : forall s c,
  app_ctxs s !! self = Some c ->
  let m := times n (AppContext_push task self) in
  outcome m s = Ok tt /\
  app_ctxs (state_after m s) !! self = Some (incr_reference_count (Z.of_nat n) c) /\
  app_stack task (state_after m s) = replicate n self ++ app_stack task s /\
  calls m s = replicate n appcontext_pushed.
Proof.
  induction n as [|n IH]; intros s c Hc m; subst m.
  - cbn. rewrite Hc, incr_reference_count_0. repeat split.
  - assert (Hlt : (self < length (app_ctxs s))%nat) by (eapply lookup_lt_Some; eauto).
    cbn [times].
    unfold outcome, state_after, calls.
    rewrite (bind_Ok _ _ s _ tt _ (AppContext_push_run task self s c Hc)).
    cbn [fst snd].
    set (s1 := set_stack AppStack _ _).
    assert (Hc1 : app_ctxs s1 !! self = Some (incr_reference_count 1 c)).
    { unfold s1. cbn. by rewrite list_lookup_insert_eq. }
    destruct (IH s1 _ Hc1) as (Hout & Hcount & Hstack & Hcalls).
    rewrite Hout, Hcount, Hstack, Hcalls.
    repeat split.
    + rewrite incr_reference_count_add. do 2 f_equal. lia.
    + unfold s1, app_stack. cbn [get_stack set_stack _app_ctx_stack].
      rewrite stack_of_insert, replicate_S_end, <- app_assoc. reflexivity.
Qed.

Lemma AppContext_pop_times task self exc n : forall s c,
  app_ctxs s !! self = Some c ->
  Z.of_nat n <= _app_reference_count c ->
  (n <= length (app_stack task s))%nat ->
  teardown_appcontext_funcs (app c) exc = None ->
  let m := times n (AppContext_pop task self exc) in
  outcome m s = Ok tt /\
  app_ctxs (state_after m s) !! self = Some (incr_reference_count (- Z.of_nat n) c) /\
  app_stack task (state_after m s) = drop n (app_stack task s) /\
  teardown_appcontext_calls (calls m s)
  = (if decide (n <> 0%nat /\ _app_reference_count c = Z.of_nat n) then 1 else 0)%nat.
Proof.
  induction n as [|n IH]; intros s c Hc Hle Hlen Hhook m; subst m.
  - cbn. rewrite Hc, incr_reference_count_0. repeat split.
  - assert (Hlt : (self < length (app_ctxs s))%nat) by (eapply lookup_lt_Some; eauto).
    cbn [times].
    pose proof (AppContext_pop_run task self exc s c Hc) as Hrun. cbv zeta in Hrun.
    destruct (app_stack task s) as [|top rest] eqn:Hst; [cbn in Hlen; lia|].
    rewrite Hhook in Hrun.
    assert (Hhook' : (if decide (_app_reference_count c - 1 <= 0)
                      then (None : option Exn) else None) = None)
      by (by destruct (decide _)).
    rewrite Hhook' in Hrun.
    unfold outcome, state_after, calls.
    rewrite (bind_Ok _ _ s _ tt _ Hrun).
    cbn [fst snd].
    set (s1 := set_stack AppStack _ _).
    assert (Hc1 : app_ctxs s1 !! self = Some (incr_reference_count (-1) c)).
    { unfold s1. cbn. by rewrite list_lookup_insert_eq. }
    assert (Hst1 : app_stack task s1 = rest).
    { unfold s1, app_stack. cbn. by rewrite stack_of_insert. }
    destruct (IH s1 _ Hc1) as (Hout & Hcount & Hstack & Hcalls).
    + cbn. lia.
    + rewrite Hst1. cbn in Hlen. lia.
    + exact Hhook.
    + rewrite Hout, Hcount, Hstack, Hst1.
      rewrite !teardown_appcontext_calls_app, Hcalls.
      repeat split.
      * rewrite incr_reference_count_add. do 2 f_equal. lia.
      * cbn [incr_reference_count _app_reference_count].
        repeat case_decide; try reflexivity; exfalso; lia.
Qed.

Lemma pushed_notifications_replicate (n : nat) :
  pushed_notifications (replicate n appcontext_pushed) = n.
Proof.
  induction n as [|n IH]; [reflexivity|].
  change (replicate (S n) appcontext_pushed)
    with ([appcontext_pushed] ++ replicate n appcontext_pushed).
  rewrite pushed_notifications_app, IH. reflexivity.
Qed.

(** X1: an [AppContext] with count 0 that is pushed [n] times and then
    popped [k <= n] times: every call returns, the pushes send [n]
    notifications and bring the count to [n]; after the pops the count
    is [n - k], [n - k] entries of the context are left on the task's
    stack above what was there before, and the application's
    app-context teardown has been called once if [k = n] and not at all
    otherwise. *)
Theorem AppContext_teardown_on_outermost_pop task self exc n k s c :
  app_ctxs s !! self = Some c ->
  _app_reference_count c = 0 ->
  (0 < k <= n)%nat ->
  teardown_appcontext_funcs (app c) exc = None ->
  let pushes := times n (AppContext_push task self) in
  let pops := times k (AppContext_pop task self exc) in
  let s1 := state_after pushes s in
  let s2 := state_after pops s1 in
  outcome pushes s = Ok tt /\
  pushed_notifications (calls pushes s) = n /\
  reference_count self s1 = Some (Z.of_nat n) /\
  outcome pops s1 = Ok tt /\
  reference_count self s2 = Some (Z.of_nat n - Z.of_nat k) /\
  app_stack task s2 = replicate (n - k) self ++ app_stack task s /\
  teardown_appcontext_calls (calls pops s1) = (if decide (k = n) then 1 else 0)%nat.
Proof.
  intros Hc Hzero Hk Hhook pushes pops s1 s2.
  destruct (AppContext_push_times task self n s c Hc) as (Hout1 & Hc1 & Hst1 & Hcalls1).
  fold pushes s1 in Hout1, Hc1, Hst1, Hcalls1.
  destruct (AppContext_pop_times task self exc k s1 _ Hc1) as (Hout2 & Hc2 & Hst2 & Hcalls2).
  - cbn. lia.
  - rewrite Hst1, length_app, length_replicate. lia.
  - exact Hhook.
  - fold pops s2 in Hout2, Hc2, Hst2, Hcalls2.
    split; [exact Hout1|].
    split; [rewrite Hcalls1; apply pushed_notifications_replicate|].
    split; [unfold reference_count; rewrite Hc1; cbn; f_equal; lia|].
    split; [exact Hout2|].
    split; [unfold reference_count; rewrite Hc2; cbn; f_equal; lia|].
    split.
    + rewrite Hst2, Hst1, drop_app_le by (rewrite length_replicate; lia).
      by rewrite drop_replicate.
    + rewrite Hcalls2. cbn [incr_reference_count _app_reference_count].
      repeat case_decide; try reflexivity; exfalso; lia.
Qed.

Lemma AppContext_teardown_on_outermost_pop_witness :
  let pushes := times 3 (AppContext_push 0%nat 0%nat) in
  let inner := times 2 (AppContext_pop 0%nat 0%nat None) in
  let s := state_after (app_context Sample.quart_app) Sample.fresh in
  let s1 := state_after pushes s in
  reference_count 0%nat s1 = Some 3 /\
  reference_count 0%nat (state_after inner s1) = Some 1 /\
  app_stack 0%nat (state_after inner s1) = [0%nat] /\
  teardown_appcontext_calls (calls inner s1) = 0%nat.
Proof.
  intros pushes inner s s1.
  destruct (AppContext_teardown_on_outermost_pop 0%nat 0%nat None 3 2 s
              (initial_AppContext Sample.quart_app) eq_refl eq_refl
              (conj (le_S _ _ (le_n 1)) (le_S _ _ (le_n 2))) eq_refl)
    as (_ & _ & Hc1 & _ & Hc2 & Hst & Hcalls).
  repeat split; assumption.
Defined.

Lemma has_context_run task s :
  outcome (has_app_context task) s = Ok (is_not_None (head (app_stack task s))) /\
  outcome (has_request_context task) s = Ok (is_not_None (head (request_stack task s))) /\
  outcome (has_websocket_context task) s
  = Ok (is_not_None (head (websocket_stack task s))).
Proof. repeat split. Qed.

Lemma WebsocketContext__aenter__state task self s c r :
  ctxs s !! self = Some c ->
  request_websockets s !! request_websocket c = Some r ->
  let s1 := state_after (WebsocketContext__aenter__ task self) s in
  outcome (WebsocketContext__aenter__ task self) s = Ok self /\
  ctxs s1 !! self = Some (entered c r) /\
  websocket_stack task s1 = self :: websocket_stack task s /\
  request_stack task s1 = request_stack task s /\
  app_stack task s1 =
    match app_stack task s with
    | [] => [length (app_ctxs s)]
    | top :: rest => top :: rest
    end /\
  calls (WebsocketContext__aenter__ task self) s =
    match app_stack task s with
    | [] => [appcontext_pushed]
    | _ :: _ => []
    end.
Proof.
  intros Hc Hr s1. subst s1.
  assert (Hlt : (self < length (ctxs s))%nat) by (eapply lookup_lt_Some; eauto).
  unfold outcome, state_after, calls, WebsocketContext__aenter__.
  cbv beta iota zeta delta [bind].
  rewrite (_BaseRequestWebsocketContext__aenter__run task self s c r Hc Hr).
  unfold websocket_stack, request_stack.
  destruct (app_stack task s) as [|top rest] eqn:Hst; unfold app_stack in *; run_M.
  - rewrite list_lookup_insert_eq by done. rewrite !stack_of_insert. done.
  - rewrite list_lookup_insert_eq by done. rewrite !stack_of_insert, Hst. done.
Qed.

Lemma RequestContext__aenter__other_stacks task self s c r :
  ctxs s !! self = Some c ->
  request_websockets s !! request_websocket c = Some r ->
  let s1 := state_after (RequestContext__aenter__ task self) s in
  websocket_stack task s1 = websocket_stack task s /\
  request_websockets s1 = request_websockets s.
Proof.
  intros Hc Hr s1. subst s1. unfold state_after.
  rewrite (RequestContext__aenter__run task self s c r Hc Hr).
  unfold state_after.
  rewrite (_BaseRequestWebsocketContext__aenter__run task self s c r Hc Hr).
  unfold websocket_stack. destruct (app_stack task s); run_M; done.
Qed.

Lemma _BaseRequestWebsocketContext__aexit__other task self exc s c :
  ctxs s !! self = Some c ->
  let s' := state_after (_BaseRequestWebsocketContext__aexit__ task self exc) s in
  websocket_stack task s' = websocket_stack task s /\
  ctxs s' = ctxs s /\
  request_websockets s' = request_websockets s.
Proof.
  intros Hc s'. subst s'. unfold state_after.
  rewrite (_BaseRequestWebsocketContext__aexit__run task self exc s c Hc).
  rewrite (AppContext_pop_run task (length (app_ctxs s)) exc _
             (initial_AppContext (ctx_app c)))
    by (cbn; apply list_lookup_middle; reflexivity).
  unfold app_stack, websocket_stack. run_M.
  destruct (decide (0 - 1 <= 0)) as [_|?]; [|lia].
  destruct (stack_of task (_app_ctx_stack s)) as [|a arest]; run_M; [done|].
  destruct (teardown_appcontext_funcs (ctx_app c) exc); run_M; done.
Qed.

Lemma WebsocketContext__aexit__run task self exc s :
  WebsocketContext__aexit__ task self exc s =
    match websocket_stack task s with
    | [] => (Raise EmptyStackError, s, [])
    | _ :: rest =>
        _BaseRequestWebsocketContext__aexit__ task self exc
          (set_stack WebsocketStack (<[task := rest]> (_websocket_ctx_stack s)) s)
    end.
Proof.
  unfold WebsocketContext__aexit__, websocket_stack.
  cbv beta iota zeta delta [bind LocalStack_pop get_stack].
  destruct (stack_of task (_websocket_ctx_stack s)) as [|top rest]; [reflexivity|].
  destruct (_BaseRequestWebsocketContext__aexit__ task self exc _) as [[r s2] evs].
  reflexivity.
Qed.

Lemma WebsocketContext__aexit__state task self exc s c top rest :
  ctxs s !! self = Some c ->
  websocket_stack task s = top :: rest ->
  let m := WebsocketContext__aexit__ task self exc in
  let hook := teardown_appcontext_funcs (ctx_app c) exc in
  app_ctxs (state_after m s) =
    app_ctxs s ++ [incr_reference_count (-1) (initial_AppContext (ctx_app c))] /\
  app_stack task (state_after m s) = tail (app_stack task s) /\
  websocket_stack task (state_after m s) = rest /\
  request_stack task (state_after m s) = request_stack task s /\
  outcome m s =
    match app_stack task s, hook with
    | [], _ => Raise EmptyStackError
    | _ :: _, Some e => Raise e
    | _ :: _, None => Ok tt
    end /\
  calls m s =
    do_teardown_appcontext exc ::
    match app_stack task s, hook with
    | _ :: _, None => [appcontext_popped]
    | _, _ => []
    end.
Proof.
  intros Hc Hst m hook. subst m hook.
  unfold outcome, state_after, calls.
  rewrite (WebsocketContext__aexit__run task self exc s), Hst.
  set (s1 := set_stack WebsocketStack (<[task:=rest]> (_websocket_ctx_stack s)) s).
  assert (Hc1 : ctxs s1 !! self = Some c) by exact Hc.
  destruct (_BaseRequestWebsocketContext__aexit__state task self exc s1 c Hc1)
    as (Happ & Hastack & Hrstack & Hout & Hcalls).
  destruct (_BaseRequestWebsocketContext__aexit__other task self exc s1 c Hc1)
    as (Hwstack & _).
  unfold outcome, state_after, calls in *.
  rewrite Happ, Hastack, Hrstack, Hout, Hcalls, Hwstack.
  replace (websocket_stack task s1) with rest
    by (unfold websocket_stack, s1; cbn; by rewrite stack_of_insert).
  done.
Qed.

(** X2: in a task with no [AppContext] active, entering a
    [WebsocketContext] returns it; inside, [has_websocket_context] and
    [has_app_context] answer [True] and the request stack is as before;
    exiting (app-context teardown returning) succeeds, leaves the
    app-context stack empty and the websocket stack as it was before
    the entry, and the app-context teardown has been called exactly
    once. *)
Theorem WebsocketContext_enter_exit_from_no_context task self exc s c r :
  ctxs s !! self = Some c ->
  subclass c = WebsocketContext ->
  request_websockets s !! request_websocket c = Some r ->
  app_stack task s = [] ->
  teardown_appcontext_funcs (ctx_app c) exc = None ->
  let enter := WebsocketContext__aenter__ task self in
  let exit := WebsocketContext__aexit__ task self exc in
  let s1 := state_after enter s in
  let s2 := state_after exit s1 in
  outcome enter s = Ok self /\
  outcome (has_websocket_context task) s1 = Ok true /\
  outcome (has_app_context task) s1 = Ok true /\
  request_stack task s1 = request_stack task s /\
  outcome exit s1 = Ok tt /\
  app_stack task s2 = [] /\
  websocket_stack task s2 = websocket_stack task s /\
  teardown_appcontext_calls (calls enter s ++ calls exit s1) = 1%nat.
Proof.
  intros Hc _ Hr Hst Happ enter exit s1 s2.
  destruct (WebsocketContext__aenter__state task self s c r Hc Hr)
    as (Hout1 & Hc1 & Hws1 & Hrs1 & Has1 & Hcalls1).
  fold enter s1 in Hout1, Hc1, Hws1, Hrs1, Has1, Hcalls1.
  rewrite Hst in Has1, Hcalls1.
  destruct (WebsocketContext__aexit__state task self exc s1 (entered c r) self
              (websocket_stack task s) Hc1 Hws1)
    as (_ & Has2 & Hws2 & _ & Hout2 & Hcalls2).
  fold exit s2 in Has2, Hws2, Hout2, Hcalls2.
  rewrite Has1 in Has2, Hout2, Hcalls2.
  change (teardown_appcontext_funcs (ctx_app (entered c r)) exc)
    with (teardown_appcontext_funcs (ctx_app c) exc) in Hout2, Hcalls2.
  rewrite Happ in Hout2, Hcalls2.
  destruct (has_context_run task s1) as (Hha & _ & Hhw).
  rewrite Hha, Hhw, Has1, Hws1, Hcalls1, Hcalls2.
  repeat split; done.
Qed.

(** X3: when the app-context teardown raises during the exit of a
    [WebsocketContext] that is on top of the task's websocket stack,
    with an [AppContext] active, the failure reaches the caller with
    the websocket stack entry and the top of the app-context stack
    already removed; no popped notification is sent. *)
Theorem WebsocketContext_exit_cleans_up_before_failure
    task self exc s c top rest a arest e :
  ctxs s !! self = Some c ->
  websocket_stack task s = top :: rest ->
  app_stack task s = a :: arest ->
  teardown_appcontext_funcs (ctx_app c) exc = Some e ->
  let exit := WebsocketContext__aexit__ task self exc in
  outcome exit s = Raise e /\
  websocket_stack task (state_after exit s) = rest /\
  app_stack task (state_after exit s) = arest /\
  calls exit s = [do_teardown_appcontext exc].
Proof.
  intros Hc Hws Has Hhook exit.
  destruct (WebsocketContext__aexit__state task self exc s c top rest Hc Hws)
    as (_ & Has2 & Hws2 & _ & Hout2 & Hcalls2).
  fold exit in Has2, Hws2, Hout2, Hcalls2.
  rewrite Has, Hhook in *. done.
Qed.

(** X4: when the request-teardown hook returns and the app-context
    teardown raises during the exit of a [RequestContext] that is on
    top of the task's request stack, with an [AppContext] active, the
    failure reaches the caller with the request stack entry and the top
    of the app-context stack already removed; both teardowns were
    called with the error given to the exit, the request one first. *)
Theorem RequestContext_exit_app_teardown_failure
    task self exc s c top rest a arest e :
  ctxs s !! self = Some c ->
  request_stack task s = top :: rest ->
  app_stack task s = a :: arest ->
  teardown_request_funcs (ctx_app c) exc self = None ->
  teardown_appcontext_funcs (ctx_app c) exc = Some e ->
  let exit := RequestContext__aexit__ task self exc in
  outcome exit s = Raise e /\
  request_stack task (state_after exit s) = rest /\
  app_stack task (state_after exit s) = arest /\
  calls exit s = [do_teardown_request exc self; do_teardown_appcontext exc].
Proof.
  intros Hc Hrs Has Hreq Hhook exit.
  destruct (RequestContext__aexit__state task self exc s c top rest Hc Hreq Hrs)
    as (_ & Has2 & Hrs2 & Hout2 & Hcalls2).
  fold exit in Has2, Hrs2, Hout2, Hcalls2.
  rewrite Has, Hhook in *. done.
Qed.

(** X5: the exit of a [RequestContext] that is on the task's request
    stack, once the request-teardown hook has returned, calls the
    app-context teardown exactly once, with the error given to the
    exit, whatever the reference count of the active [AppContext]: it
    pops a newly constructed [AppContext], and every [AppContext] that
    existed before the exit keeps its attributes, its reference count
    included. *)
Theorem RequestContext_exit_pops_new_AppContext task self exc s c top rest :
  ctxs s !! self = Some c ->
  request_stack task s = top :: rest ->
  teardown_request_funcs (ctx_app c) exc self = None ->
  let exit := RequestContext__aexit__ task self exc in
  teardown_appcontext_calls (calls exit s) = 1%nat /\
  do_teardown_appcontext exc ∈ calls exit s /\
  reference_count (length (app_ctxs s)) (state_after exit s) = Some (-1) /\
  forall a c0, app_ctxs s !! a = Some c0 -> app_ctxs (state_after exit s) !! a = Some c0.
Proof.
  intros Hc Hrs Hreq exit.
  destruct (RequestContext__aexit__state task self exc s c top rest Hc Hreq Hrs)
    as (Happ & _ & _ & _ & Hcalls).
  fold exit in Happ, Hcalls.
  rewrite Hcalls. unfold reference_count. rewrite Happ.
  split; [|split; [|split]].
  - destruct (app_stack task s), (teardown_appcontext_funcs (ctx_app c) exc); reflexivity.
  - apply elem_of_cons. right. apply elem_of_cons. by left.
  - rewrite list_lookup_middle by reflexivity. reflexivity.
  - intros a c0 Ha. rewrite lookup_app_l; [done|]. eapply lookup_lt_Some; eauto.
Qed.

(** X6: entering a [RequestContext] or a [WebsocketContext] always
    returns and leaves the context with a session: the one the
    application opened for the request, or the application's null
    session when it opened none. *)
Theorem enter_gives_session task self s c r :
  ctxs s !! self = Some c ->
  request_websockets s !! request_websocket c = Some r ->
  let sess := default (make_null_session (ctx_app c)) (open_session (ctx_app c) r) in
  (outcome (RequestContext__aenter__ task self) s = Ok self /\
   session_of self (state_after (RequestContext__aenter__ task self) s)
   = Some (Some sess)) /\
  (outcome (WebsocketContext__aenter__ task self) s = Ok self /\
   session_of self (state_after (WebsocketContext__aenter__ task self) s)
   = Some (Some sess)).
Proof.
  intros Hc Hr sess.
  destruct (RequestContext__aenter__state task self s c r Hc Hr) as (Hout & Hc1 & _).
  destruct (WebsocketContext__aenter__state task self s c r Hc Hr) as (Hout' & Hc1' & _).
  unfold session_of. rewrite Hc1, Hc1'. done.
Qed.

(** X7: once a task has entered a [RequestContext], [has_request_context]
    and [has_app_context] answer [True], the websocket stack is as
    before, and [after_this_request] returns and registers its function
    on the context just entered. *)
Theorem RequestContext_enter_activates task self func s c r fs :
  ctxs s !! self = Some c ->
  subclass c = RequestContext fs ->
  request_websockets s !! request_websocket c = Some r ->
  let s1 := state_after (RequestContext__aenter__ task self) s in
  outcome (has_request_context task) s1 = Ok true /\
  outcome (has_app_context task) s1 = Ok true /\
  websocket_stack task s1 = websocket_stack task s /\
  outcome (after_this_request task func) s1 = Ok func /\
  after_request_functions self (state_after (after_this_request task func) s1)
  = Some (fs ++ [func]).
Proof.
  intros Hc Hsub Hr s1.
  destruct (RequestContext__aenter__state task self s c r Hc Hr)
    as (_ & Hc1 & Hrs1 & Has1 & _).
  destruct (RequestContext__aenter__other_stacks task self s c r Hc Hr) as (Hws1 & _).
  fold s1 in Hc1, Hrs1, Has1, Hws1.
  destruct (has_context_run task s1) as (Hha & Hhr & _).
  rewrite Hha, Hhr, Has1, Hrs1.
  assert (Hsub1 : subclass (entered c r) = RequestContext fs) by exact Hsub.
  unfold outcome, state_after.
  rewrite (after_this_request_run task func s1 self _ _ fs Hrs1 Hc1 Hsub1).
  unfold after_request_functions. cbn.
  rewrite list_lookup_insert_eq by (eapply lookup_lt_Some; eauto).
  repeat split; try done.
  by destruct (app_stack task s).
Qed.

Lemma construction_state a rw s r :
  request_websockets s !! rw = Some r ->
  (exists r', state_after (RequestContext__init__ a rw) s
              = constructed_state (RequestContext []) a rw r r' s) /\
  (exists r', state_after (WebsocketContext__init__ a rw) s
              = constructed_state WebsocketContext a rw r r' s).
Proof.
  intros Hr. unfold state_after. split.
  - rewrite (RequestContext__init__run a rw s r Hr).
    destruct (match_ _) as [res|e]; [|destruct (routing_failure e)]; eauto.
  - rewrite (WebsocketContext__init__run a rw s r Hr).
    destruct (match_ _) as [res|e]; [|destruct (routing_failure e)]; eauto.
Qed.

(** X8: constructing a [RequestContext] or a [WebsocketContext] does
    not activate anything, whether it returns or raises: the three
    task-local stacks and the [AppContext] objects are as before, every
    context that existed before is unchanged, and so is every
    request/websocket object other than the one given. *)
Theorem construction_activates_nothing a rw s r init :
  request_websockets s !! rw = Some r ->
  init = RequestContext__init__ a rw \/ init = WebsocketContext__init__ a rw ->
  let s' := state_after init s in
  _app_ctx_stack s' = _app_ctx_stack s /\
  _request_ctx_stack s' = _request_ctx_stack s /\
  _websocket_ctx_stack s' = _websocket_ctx_stack s /\
  app_ctxs s' = app_ctxs s /\
  (forall ctx c, ctxs s !! ctx = Some c -> ctxs s' !! ctx = Some c) /\
  (forall other, other <> rw ->
     request_websockets s' !! other = request_websockets s !! other).
Proof.
  intros Hr Hinit s'. subst s'.
  assert (exists cls r', state_after init s = constructed_state cls a rw r r' s)
    as (cls & r' & ->).
  { destruct (construction_state a rw s r Hr) as [[r1 Hr1] [r2 Hr2]].
    destruct Hinit as [-> | ->]; eauto. }
  unfold constructed_state. cbn. repeat split.
  - intros ctx c Hc. rewrite lookup_app_l; [done|]. eapply lookup_lt_Some; eauto.
  - intros other Hne. by rewrite list_lookup_insert_ne.
Qed.

(** X9: when the match succeeds, constructing a [RequestContext]
    returns a new context whose [request] is the object given, with no
    session and no registered functions; the request object then holds
    the matched rule and arguments and no routing exception, also when
    it carried one before. *)
Theorem RequestContext_construction_stores_match a rw s r rule args :
  request_websockets s !! rw = Some r ->
  match_ (create_url_adapter a (Some r)) = Ok (rule, args) ->
  let init := RequestContext__init__ a rw in
  let self : addr := length (ctxs s) in
  let s' := state_after init s in
  outcome init s = Ok self /\
  outcome (RequestContext_request self) s' = Ok rw /\
  session_of self s' = Some None /\
  after_request_functions self s' = Some [] /\
  deferred_routing_failure rw s' = Some None /\
  matched_rule rw s' = Some (Some rule) /\
  matched_args rw s' = Some (Some args).
Proof.
  intros Hr Hm init self s'. subst init self s'.
  assert (Hlt : (rw < length (request_websockets s))%nat) by (eapply lookup_lt_Some; eauto).
  unfold outcome, state_after.
  rewrite (RequestContext__init__run a rw s r Hr), Hm.
  unfold RequestContext_request, session_of, after_request_functions,
    deferred_routing_failure, matched_rule, matched_args, constructed_state.
  run_M.
  rewrite list_lookup_middle by reflexivity.
  rewrite list_lookup_insert_eq by done. done.
Qed.

(** X10: when the match fails with [NotFound], [MethodNotAllowed] or
    [RedirectRequired], construction leaves [url_rule] and [view_args]
    of the request/websocket object as they were. *)
Theorem construction_failure_keeps_rule a rw s r e init :
  request_websockets s !! rw = Some r ->
  match_ (create_url_adapter a (Some r)) = Raise e ->
  routing_failure e = true ->
  init = RequestContext__init__ a rw \/ init = WebsocketContext__init__ a rw ->
  matched_rule rw (state_after init s) = Some (url_rule r) /\
  matched_args rw (state_after init s) = Some (view_args r).
Proof.
  intros Hr Hm Hrf Hinit.
  assert (Hlt : (rw < length (request_websockets s))%nat) by (eapply lookup_lt_Some; eauto).
  unfold state_after, matched_rule, matched_args.
  destruct Hinit as [-> | ->].
  - rewrite (RequestContext__init__run a rw s r Hr), Hm, Hrf.
    unfold constructed_state. cbn. by rewrite list_lookup_insert_eq.
  - rewrite (WebsocketContext__init__run a rw s r Hr), Hm, Hrf.
    unfold constructed_state. cbn. by rewrite list_lookup_insert_eq.
Qed.

(** X11: when the match succeeds with a websocket-capable rule,
    constructing a [WebsocketContext] returns a new context whose
    [websocket] is the object given; the websocket object then holds
    the rule and arguments and no routing exception. *)
Theorem WebsocketContext_construction_on_websocket_route a rw s r rule args :
  request_websockets s !! rw = Some r ->
  match_ (create_url_adapter a (Some r)) = Ok (rule, args) ->
  is_websocket rule = true ->
  let init := WebsocketContext__init__ a rw in
  let self : addr := length (ctxs s) in
  let s' := state_after init s in
  outcome init s = Ok self /\
  outcome (WebsocketContext_websocket self) s' = Ok rw /\
  deferred_routing_failure rw s' = Some None /\
  matched_rule rw s' = Some (Some rule) /\
  matched_args rw s' = Some (Some args).
Proof.
  intros Hr Hm Hws init self s'. subst init self s'.
  assert (Hlt : (rw < length (request_websockets s))%nat) by (eapply lookup_lt_Some; eauto).
  unfold outcome, state_after.
  rewrite (WebsocketContext__init__run a rw s r Hr), Hm. cbn [fst snd].
  rewrite Hws.
  unfold WebsocketContext_websocket, deferred_routing_failure, matched_rule,
    matched_args, constructed_state.
  run_M.
  rewrite list_lookup_middle by reflexivity.
  rewrite list_lookup_insert_eq by done. done.
Qed.

(** X12: when the match raises an exception that is none of
    [NotFound], [MethodNotAllowed], [RedirectRequired], construction of
    either context raises that exception; the routing exception of the
    request/websocket object has been reset to [None] by then. *)
Theorem construction_propagates_other_failures a rw s r e init :
  request_websockets s !! rw = Some r ->
  match_ (create_url_adapter a (Some r)) = Raise e ->
  routing_failure e = false ->
  init = RequestContext__init__ a rw \/ init = WebsocketContext__init__ a rw ->
  outcome init s = Raise e /\
  deferred_routing_failure rw (state_after init s) = Some None.
Proof.
  intros Hr Hm Hrf Hinit.
  unfold outcome, state_after.
  destruct Hinit as [-> | ->].
  - rewrite (RequestContext__init__run a rw s r Hr), Hm, Hrf. cbv zeta. cbn [fst snd].
    split; [reflexivity|]. by rewrite deferred_routing_failure_constructed.
  - rewrite (WebsocketContext__init__run a rw s r Hr), Hm, Hrf. cbv zeta. cbn [fst snd].
    split; [reflexivity|]. by rewrite deferred_routing_failure_constructed.
Qed.

(** X13: [setdefault] returns the value that is stored under the name
    afterwards: a later [get] returns it whatever default it is given,
    [__contains__] answers [True], a second [setdefault] changes
    nothing; a value already stored is not overwritten and the other
    names keep their values. *)
Theorem AppCtxGlobals_setdefault_then_get (name : string) (dflt other : Any)
    (d : gmap string Any) :
  let v := fst (_AppCtxGlobals.setdefault name dflt d) in
  let d' := snd (_AppCtxGlobals.setdefault name dflt d) in
  _AppCtxGlobals.get name other d' = v /\
  _AppCtxGlobals.__contains__ name d' = true /\
  _AppCtxGlobals.setdefault name other d' = (v, d') /\
  (forall old, d !! name = Some old -> v = old /\ d' = d) /\
  (d !! name = None -> v = dflt) /\
  (forall key, key <> name -> d' !! key = d !! key).
Proof.
  unfold _AppCtxGlobals.setdefault, _AppCtxGlobals.get, _AppCtxGlobals.__contains__.
  destruct (d !! name) as [old|] eqn:Hd; cbn [fst snd].
  - rewrite Hd. cbn.
    split; [reflexivity|]. split; [first [done | by apply bool_decide_eq_true]|].
    split; [reflexivity|]. split; [by intros old' [= ->]|].
    split; [discriminate|]. reflexivity.
  - rewrite lookup_insert_eq. cbn.
    split; [reflexivity|]. split; [first [done | by apply bool_decide_eq_true]|].
    split; [reflexivity|]. split; [discriminate|].
    split; [reflexivity|]. intros key Hne. by rewrite lookup_insert_ne.
Qed.

(** X14: on a name that is not stored, [setdefault] followed by [pop]
    (with or without a default) gives back the value set and the
    dictionary as it was before. *)
Theorem AppCtxGlobals_setdefault_pop_round_trip (name : string) (v : Any)
    (dflt : option Any) (d : gmap string Any) :
  d !! name = None ->
  _AppCtxGlobals.pop name dflt (snd (_AppCtxGlobals.setdefault name v d)) = (Ok v, d).
Proof.
  intros Hd. unfold _AppCtxGlobals.setdefault, _AppCtxGlobals.pop. rewrite Hd. cbn.
  rewrite lookup_insert_eq.
  rewrite delete_insert_eq, delete_id by done.
  by destruct dflt.
Qed.

(** X15: after [pop] has removed a stored name, [__contains__] answers
    [False] for it, [get] returns its default, a second [pop] without
    default raises [KeyError] and a second [pop] with a default returns
    that default; neither changes the dictionary again. *)
Theorem AppCtxGlobals_pop_removes (name : string) (v other : Any) (dflt : option Any)
    (d : gmap string Any) :
  d !! name = Some v ->
  let d' := snd (_AppCtxGlobals.pop name dflt d) in
  fst (_AppCtxGlobals.pop name dflt d) = Ok v /\
  _AppCtxGlobals.__contains__ name d' = false /\
  _AppCtxGlobals.get name other d' = other /\
  _AppCtxGlobals.pop name None d' = (Raise (KeyError name), d') /\
  _AppCtxGlobals.pop name (Some other) d' = (Ok other, d').
Proof.
  intros Hd d'. subst d'.
  assert (Hpop : _AppCtxGlobals.pop name dflt d = (Ok v, delete name d)).
  { unfold _AppCtxGlobals.pop. rewrite Hd. by destruct dflt. }
  rewrite Hpop. cbn [fst snd].
  unfold _AppCtxGlobals.__contains__, _AppCtxGlobals.get, _AppCtxGlobals.pop.
  rewrite lookup_delete_eq. repeat split.
Qed.

(** X16: a task that is inside a [WebsocketContext] but has no
    [RequestContext] active cannot register with [after_this_request]:
    the call raises [AttributeError] and changes nothing, although
    [has_websocket_context] answers [True]. *)
Theorem after_this_request_in_websocket_only task self func s c r :
  ctxs s !! self = Some c ->
  request_websockets s !! request_websocket c = Some r ->
  request_stack task s = [] ->
  let s1 := state_after (WebsocketContext__aenter__ task self) s in
  outcome (has_websocket_context task) s1 = Ok true /\
  outcome (has_request_context task) s1 = Ok false /\
  outcome (after_this_request task func) s1 = Raise AttributeError /\
  state_after (after_this_request task func) s1 = s1.
Proof.
  intros Hc Hr Hrs s1.
  destruct (WebsocketContext__aenter__state task self s c r Hc Hr)
    as (_ & _ & Hws1 & Hrs1 & _).
  fold s1 in Hws1, Hrs1. rewrite Hrs in Hrs1.
  destruct (has_context_run task s1) as (_ & Hhr & Hhw).
  rewrite Hhr, Hhw, Hws1, Hrs1.
  unfold outcome, state_after.
  rewrite (after_this_request_outside task func s1 Hrs1). done.
Qed.

(** X17: [after_this_request] changes nothing but the function list of
    the context on top of the calling task's request stack: the other
    contexts (an outer request context among them), the stacks, the
    [AppContext] and request objects and the entered context's session
    are as before, and no collaborator is called. *)
Theorem after_this_request_touches_top_only task func s ctx rest c fs :
  request_stack task s = ctx :: rest ->
  ctxs s !! ctx = Some c ->
  subclass c = RequestContext fs ->
  let s' := state_after (after_this_request task func) s in
  (forall other, other <> ctx -> ctxs s' !! other = ctxs s !! other) /\
  session_of ctx s' = session_of ctx s /\
  _app_ctx_stack s' = _app_ctx_stack s /\
  _request_ctx_stack s' = _request_ctx_stack s /\
  _websocket_ctx_stack s' = _websocket_ctx_stack s /\
  app_ctxs s' = app_ctxs s /\
  request_websockets s' = request_websockets s /\
  calls (after_this_request task func) s = [].
Proof.
  intros Hst Hc Hsub s'. subst s'. unfold state_after, calls, session_of.
  rewrite (after_this_request_run task func s ctx rest c fs Hst Hc Hsub). cbn.
  rewrite list_lookup_insert_eq by (eapply lookup_lt_Some; eauto).
  rewrite Hc. repeat split.
  intros other Hne. by rewrite list_lookup_insert_ne.
Qed.

(** X18: the [repr] of a [g] object names the application of the
    [AppContext] on top of the calling task's stack: right after a task
    has pushed an [AppContext] it is `<quart.g of NAME>` with the name
    of that context's application; with no [AppContext] active it is
    what [object.__repr__] gives. *)
Theorem AppCtxGlobals_repr_names_active_app task self (plain : string) s c :
  app_ctxs s !! self = Some c ->
  outcome (_AppCtxGlobals__repr__ task plain)
    (state_after (AppContext_push task self) s)
  = Ok (String.append "<quart.g of " (String.append (name (app c)) ">")) /\
  (app_stack task s = [] -> outcome (_AppCtxGlobals__repr__ task plain) s = Ok plain).
Proof.
  intros Hc. split.
  - unfold state_after. rewrite (AppContext_push_run task self s c Hc).
    unfold outcome, _AppCtxGlobals__repr__. run_M.
    rewrite stack_of_insert. run_M.
    rewrite list_lookup_insert_eq by (eapply lookup_lt_Some; eauto). reflexivity.
  - unfold app_stack, outcome, _AppCtxGlobals__repr__. intros Hst. run_M.
    rewrite Hst. reflexivity.
Qed.

(** X19: [async with app.app_context()]: the application builds a new
    [AppContext] with count 0; entering returns the context itself,
    makes it the active one with count 1; exiting with an error calls
    the app-context teardown exactly once with that error, brings the
    count back to 0 and the task's stack back to what it was before the
    entry, and raises what the teardown raised, if it raised. *)
Theorem AppContext_scope task a exc s :
  let self : addr := length (app_ctxs s) in
  let s0 := state_after (app_context a) s in
  let enter := AppContext__aenter__ task self in
  let exit := AppContext__aexit__ task self exc in
  let s1 := state_after enter s0 in
  outcome (app_context a) s = Ok self /\
  reference_count self s0 = Some 0 /\
  outcome enter s0 = Ok self /\
  outcome (has_app_context task) s1 = Ok true /\
  reference_count self s1 = Some 1 /\
  app_stack task s1 = self :: app_stack task s /\
  calls exit s1 =
    do_teardown_appcontext exc ::
    match teardown_appcontext_funcs a exc with
    | Some _ => []
    | None => [appcontext_popped]
    end /\
  outcome exit s1 =
    match teardown_appcontext_funcs a exc with
    | Some e => Raise e
    | None => Ok tt
    end /\
  reference_count self (state_after exit s1) = Some 0 /\
  app_stack task (state_after exit s1) = app_stack task s.
Proof.
  intros self s0 enter exit s1.
  assert (Hc0 : app_ctxs s0 !! self = Some (initial_AppContext a)).
  { unfold s0, self, state_after. cbn. by apply list_lookup_middle. }
  assert (Hst0 : app_stack task s0 = app_stack task s) by reflexivity.
  assert (Hrun1 : enter s0 =
            (Ok self,
             set_stack AppStack (<[task := self :: app_stack task s0]> (_app_ctx_stack s0))
               (set_app_ctxs
                  (fun l => <[self := incr_reference_count 1 (initial_AppContext a)]> l) s0),
             [appcontext_pushed])).
  { unfold enter, AppContext__aenter__.
    rewrite (bind_Ok _ _ s0 _ tt _ (AppContext_push_run task self s0 _ Hc0)).
    reflexivity. }
  assert (Hlt : (self < length (app_ctxs s0))%nat) by (eapply lookup_lt_Some; eauto).
  assert (Hc1 : app_ctxs s1 !! self = Some (incr_reference_count 1 (initial_AppContext a))).
  { unfold s1, state_after. rewrite Hrun1. cbn. by rewrite list_lookup_insert_eq. }
  assert (Hst1 : app_stack task s1 = self :: app_stack task s).
  { unfold s1, state_after. rewrite Hrun1. unfold app_stack. cbn.
    by rewrite stack_of_insert. }
  pose proof (AppContext_pop_run task self exc s1 _ Hc1) as Hpop. cbv zeta in Hpop.
  rewrite Hst1 in Hpop. cbn [incr_reference_count initial_AppContext
    _app_reference_count app] in Hpop.
  destruct (decide (0 + 1 - 1 <= 0)) as [_|?]; [|lia].
  assert (Hlt1 : (self < length (app_ctxs s1))%nat) by (eapply lookup_lt_Some; eauto).
  split; [reflexivity|].
  split; [unfold reference_count; by rewrite Hc0|].
  split; [unfold outcome; by rewrite Hrun1|].
  split; [destruct (has_context_run task s1) as (-> & _); by rewrite Hst1|].
  split; [unfold reference_count; by rewrite Hc1|].
  split; [exact Hst1|].
  unfold outcome, state_after, calls, exit, AppContext__aexit__, reference_count.
  rewrite Hpop.
  destruct (teardown_appcontext_funcs a exc) as [e|]; cbn;
    rewrite list_lookup_insert_eq by done; unfold app_stack; cbn;
    rewrite stack_of_insert; done.
Qed.

Lemma WebsocketContext_enter_exit_from_no_context_witness :
  let enter := WebsocketContext__aenter__ 0%nat 0%nat in
  let exit := WebsocketContext__aexit__ 0%nat 0%nat None in
  let s := MoreSamples.ws_constructed in
  let s1 := state_after enter s in
  let s2 := state_after exit s1 in
  app_stack 0%nat s = [] /\
  outcome enter s = Ok 0%nat /\
  outcome (has_websocket_context 0%nat) s1 = Ok true /\
  outcome (has_app_context 0%nat) s1 = Ok true /\
  request_stack 0%nat s1 = request_stack 0%nat s /\
  outcome exit s1 = Ok tt /\
  app_stack 0%nat s2 = [] /\
  websocket_stack 0%nat s2 = websocket_stack 0%nat s /\
  teardown_appcontext_calls (calls enter s ++ calls exit s1) = 1%nat.
Proof.
  intros enter exit s s1 s2.
  split; [reflexivity|].
  eapply (WebsocketContext_enter_exit_from_no_context 0%nat 0%nat None
            MoreSamples.ws_constructed); reflexivity.
Defined.

Lemma WebsocketContext_exit_cleans_up_before_failure_witness :
  let exit := WebsocketContext__aexit__ 0%nat 0%nat (Some Sample.boom) in
  let s := MoreSamples.in_websocket in
  websocket_stack 0%nat s = [0%nat] /\
  app_stack 0%nat s = [0%nat] /\
  outcome exit s = Raise Sample.boom /\
  websocket_stack 0%nat (state_after exit s) = [] /\
  app_stack 0%nat (state_after exit s) = [] /\
  calls exit s = [do_teardown_appcontext (Some Sample.boom)].
Proof.
  intros exit s.
  split; [reflexivity|]. split; [reflexivity|].
  eapply (WebsocketContext_exit_cleans_up_before_failure 0%nat 0%nat (Some Sample.boom)
            MoreSamples.in_websocket); reflexivity.
Defined.

Lemma RequestContext_exit_app_teardown_failure_witness :
  let exit := RequestContext__aexit__ 0%nat 0%nat None in
  let s := MoreSamples.in_broken_request in
  request_stack 0%nat s = [0%nat] /\
  app_stack 0%nat s = [0%nat] /\
  outcome exit s = Raise Sample.boom /\
  request_stack 0%nat (state_after exit s) = [] /\
  app_stack 0%nat (state_after exit s) = [] /\
  calls exit s = [do_teardown_request None 0%nat; do_teardown_appcontext None].
Proof.
  intros exit s.
  split; [reflexivity|]. split; [reflexivity|].
  eapply (RequestContext_exit_app_teardown_failure 0%nat 0%nat None
            MoreSamples.in_broken_request); reflexivity.
Defined.

Lemma RequestContext_exit_pops_new_AppContext_witness :
  let exit := RequestContext__aexit__ 0%nat 0%nat None in
  let s := state_after (RequestContext__aenter__ 0%nat 0%nat) Sample.in_app_context in
  reference_count 0%nat s = Some 1 /\
  teardown_appcontext_calls (calls exit s) = 1%nat /\
  reference_count 1%nat (state_after exit s) = Some (-1) /\
  app_ctxs (state_after exit s) !! 0%nat = Some Sample.active.
Proof.
  intros exit s.
  split; [reflexivity|].
  edestruct (RequestContext_exit_pops_new_AppContext 0%nat 0%nat None s)
    as (Hcalls & _ & Hnew & Hold); [reflexivity | reflexivity | reflexivity |].
  split; [exact Hcalls|]. split; [exact Hnew|].
  exact (Hold 0%nat Sample.active eq_refl).
Defined.

Lemma enter_gives_session_witness :
  session_of 0%nat (state_after (RequestContext__aenter__ 0%nat 0%nat) Sample.constructed)
  = Some (Some NullSession) /\
  session_of 0%nat
    (state_after (WebsocketContext__aenter__ 0%nat 0%nat) MoreSamples.ws_constructed)
  = Some (Some NullSession).
Proof.
  split.
  - edestruct (enter_gives_session 0%nat 0%nat Sample.constructed) as [[_ H] _];
      [reflexivity | reflexivity | exact H].
  - edestruct (enter_gives_session 0%nat 0%nat MoreSamples.ws_constructed) as [_ [_ H]];
      [reflexivity | reflexivity | exact H].
Defined.

Lemma RequestContext_enter_activates_witness :
  let s1 := state_after (RequestContext__aenter__ 0%nat 0%nat) Sample.constructed in
  outcome (has_request_context 0%nat) s1 = Ok true /\
  outcome (has_app_context 0%nat) s1 = Ok true /\
  websocket_stack 0%nat s1 = websocket_stack 0%nat Sample.constructed /\
  outcome (after_this_request 0%nat 7%nat) s1 = Ok 7%nat /\
  after_request_functions 0%nat (state_after (after_this_request 0%nat 7%nat) s1)
  = Some ([] ++ [7%nat]).
Proof.
  eapply (RequestContext_enter_activates 0%nat 0%nat 7%nat Sample.constructed);
    reflexivity.
Defined.

Lemma construction_activates_nothing_witness :
  let s' := state_after (RequestContext__init__ Sample.quart_app 0%nat) Sample.in_app_context in
  _app_ctx_stack s' = _app_ctx_stack Sample.in_app_context /\
  app_ctxs s' = app_ctxs Sample.in_app_context /\
  request_websockets s' !! 1%nat = request_websockets Sample.in_app_context !! 1%nat.
Proof.
  intros s'.
  destruct (construction_activates_nothing Sample.quart_app 0%nat Sample.in_app_context
              _ _ eq_refl (or_introl eq_refl)) as (Hst & _ & _ & Happ & _ & Hother).
  split; [exact Hst|]. split; [exact Happ|].
  apply Hother. discriminate.
Defined.

Lemma RequestContext_construction_stores_match_witness :
  let init := RequestContext__init__ Sample.quart_app 3%nat in
  let s := MoreSamples.with_stale_requests in
  deferred_routing_failure 3%nat s = Some (Some MethodNotAllowed) /\
  outcome init s = Ok 0%nat /\
  outcome (RequestContext_request 0%nat) (state_after init s) = Ok 3%nat /\
  deferred_routing_failure 3%nat (state_after init s) = Some None /\
  matched_rule 3%nat (state_after init s) = Some (Some Sample.index_rule).
Proof.
  intros init s.
  split; [reflexivity|].
  destruct (RequestContext_construction_stores_match Sample.quart_app 3%nat s
              (MoreSamples.stale_request "/") Sample.index_rule [] eq_refl eq_refl)
    as (Hout & Hreq & _ & _ & Hexc & Hrule & _).
  repeat split; assumption.
Defined.

Lemma construction_failure_keeps_rule_witness :
  let init := WebsocketContext__init__ Sample.quart_app 4%nat in
  let s := MoreSamples.with_stale_requests in
  deferred_routing_failure 4%nat (state_after init s) = Some (Some NotFound) /\
  matched_rule 4%nat (state_after init s) = Some (Some Sample.ws_rule) /\
  matched_args 4%nat (state_after init s) = Some (Some [("id", "7")]).
Proof.
  intros init s.
  split; [reflexivity|].
  exact (construction_failure_keeps_rule Sample.quart_app 4%nat s
           (MoreSamples.stale_request "/gone") NotFound init
           eq_refl eq_refl eq_refl (or_intror eq_refl)).
Defined.

Lemma WebsocketContext_construction_on_websocket_route_witness :
  let init := WebsocketContext__init__ Sample.quart_app 1%nat in
  outcome init Sample.fresh = Ok 0%nat /\
  outcome (WebsocketContext_websocket 0%nat) (state_after init Sample.fresh) = Ok 1%nat /\
  deferred_routing_failure 1%nat (state_after init Sample.fresh) = Some None /\
  matched_rule 1%nat (state_after init Sample.fresh) = Some (Some Sample.ws_rule) /\
  matched_args 1%nat (state_after init Sample.fresh) = Some (Some []).
Proof.
  exact (WebsocketContext_construction_on_websocket_route Sample.quart_app 1%nat
           Sample.fresh (Sample.request "/ws") Sample.ws_rule [] eq_refl eq_refl eq_refl).
Defined.

Lemma construction_propagates_other_failures_witness :
  let init := RequestContext__init__ MoreSamples.broken_app 3%nat in
  let s := MoreSamples.with_stale_requests in
  outcome init s = Raise (RuntimeError "no map") /\
  deferred_routing_failure 3%nat (state_after init s) = Some None.
Proof.
  intros init s.
  exact (construction_propagates_other_failures MoreSamples.broken_app 3%nat s
           (MoreSamples.stale_request "/") (RuntimeError "no map") init
           eq_refl eq_refl eq_refl (or_introl eq_refl)).
Defined.

Lemma AppCtxGlobals_setdefault_then_get_witness :
  let d : gmap string Any := {["user" := PyStr "ada"]} in
  fst (_AppCtxGlobals.setdefault "user" (PyInt 0) d) = PyStr "ada" /\
  snd (_AppCtxGlobals.setdefault "user" (PyInt 0) d) = d /\
  fst (_AppCtxGlobals.setdefault "hits" (PyInt 0) d) = PyInt 0 /\
  snd (_AppCtxGlobals.setdefault "hits" (PyInt 0) d) !! "user" = d !! "user".
Proof.
  intros d.
  destruct (AppCtxGlobals_setdefault_then_get "user" (PyInt 0) PyNone d)
    as (_ & _ & _ & Hold & _).
  destruct (AppCtxGlobals_setdefault_then_get "hits" (PyInt 0) PyNone d)
    as (_ & _ & _ & _ & Hnew & Hother).
  destruct (Hold (PyStr "ada") eq_refl) as [Hv Hd].
  split; [exact Hv|]. split; [exact Hd|]. split; [exact (Hnew eq_refl)|].
  apply Hother. discriminate.
Defined.

Lemma AppCtxGlobals_setdefault_pop_round_trip_witness :
  let d : gmap string Any := {["user" := PyStr "ada"]} in
  _AppCtxGlobals.pop "hits" None (snd (_AppCtxGlobals.setdefault "hits" (PyInt 0) d))
  = (Ok (PyInt 0), d).
Proof.
  intros d.
  exact (AppCtxGlobals_setdefault_pop_round_trip "hits" (PyInt 0) None d eq_refl).
Defined.

Lemma AppCtxGlobals_pop_removes_witness :
  let d : gmap string Any := {["user" := PyStr "ada"]} in
  let d' := snd (_AppCtxGlobals.pop "user" None d) in
  fst (_AppCtxGlobals.pop "user" None d) = Ok (PyStr "ada") /\
  _AppCtxGlobals.__contains__ "user" d' = false /\
  _AppCtxGlobals.get "user" PyNone d' = PyNone /\
  _AppCtxGlobals.pop "user" None d' = (Raise (KeyError "user"), d') /\
  _AppCtxGlobals.pop "user" (Some PyNone) d' = (Ok PyNone, d').
Proof.
  intros d.
  exact (AppCtxGlobals_pop_removes "user" (PyStr "ada") PyNone None d eq_refl).
Defined.

Lemma after_this_request_in_websocket_only_witness :
  let s1 := state_after (WebsocketContext__aenter__ 0%nat 0%nat) MoreSamples.ws_constructed in
  outcome (has_websocket_context 0%nat) s1 = Ok true /\
  outcome (has_request_context 0%nat) s1 = Ok false /\
  outcome (after_this_request 0%nat 7%nat) s1 = Raise AttributeError /\
  state_after (after_this_request 0%nat 7%nat) s1 = s1.
Proof.
  eapply (after_this_request_in_websocket_only 0%nat 0%nat 7%nat
            MoreSamples.ws_constructed); reflexivity.
Defined.

Lemma after_this_request_touches_top_only_witness :
  let s := MoreSamples.nested_requests in
  let s' := state_after (after_this_request 0%nat 7%nat) s in
  request_stack 0%nat s = [1%nat; 0%nat] /\
  after_request_functions 1%nat s' = Some [7%nat] /\
  ctxs s' !! 0%nat = ctxs s !! 0%nat /\
  _request_ctx_stack s' = _request_ctx_stack s.
Proof.
  intros s s'.
  split; [reflexivity|]. split; [reflexivity|].
  edestruct (after_this_request_touches_top_only 0%nat 7%nat s 1%nat [0%nat])
    as (Hother & _ & _ & Hrs & _); [reflexivity | reflexivity | reflexivity |].
  split; [apply Hother; discriminate | exact Hrs].
Defined.

Lemma AppCtxGlobals_repr_names_active_app_witness :
  let s := state_after (app_context Sample.quart_app) Sample.fresh in
  outcome (_AppCtxGlobals__repr__ 0%nat "<object>")
    (state_after (AppContext_push 0%nat 0%nat) s)
  = Ok "<quart.g of sample>" /\
  outcome (_AppCtxGlobals__repr__ 0%nat "<object>") s = Ok "<object>".
Proof.
  intros s.
  destruct (AppCtxGlobals_repr_names_active_app 0%nat 0%nat "<object>" s
              (initial_AppContext Sample.quart_app) eq_refl) as [Hin Hout].
  split; [exact Hin | exact (Hout eq_refl)].
Defined.
